(** * Eventor client: request builders and tree-to-table extractors

    A shallow embedding of [src/eventor_api.py] (class [EventorAPI]), of
    [print_xml_structure] of [src/xml_utils.py] and of the parts of
    [xml.etree.ElementTree], [requests] and [pandas] that they call,
    followed by the properties of the natural-language specification and
    by further properties of the code. *)

From Stdlib Require Import ZArith String Ascii List Lia DecimalString.
From stdpp Require Import base option list strings gmap sets.

Import ListNotations.
Set Warnings "-clear-no-such-hyp".  (* raised inside set_solver *)
Local Open Scope string_scope.
Local Open Scope Z_scope.
Local Open Scope list_scope.

(** ** Python exceptions and fallible computations *)

(** The exception classes that the code can meet.  [RequestException]
    stands for [requests.exceptions.RequestException] and all its
    subclasses (ConnectionError, HTTPError, Timeout, ...), [ParseError]
    for [xml.etree.ElementTree.ParseError]; the argument is [str(e)]. *)
Inductive exn : Type :=
| RequestException (msg : string)
| ParseError (msg : string)
| AttributeError (msg : string)
| TypeError (msg : string).

Inductive result (A : Type) : Type :=
| Ok (a : A)
| Raise (e : exn).
Arguments Ok {A} a.
Arguments Raise {A} e.

Definition result_bind {A B : Type} (f : A → result B) (m : result A) : result B :=
  match m with
  | Ok a => f a
  | Raise e => Raise e
  end.

#[global] Instance result_mret : MRet result := λ A a, Ok a.
#[global] Instance result_mbind : MBind result := λ A B f m, result_bind f m.

(** ** ElementTree elements *)

(** An [xml.etree.ElementTree.Element]: tag, attribute dictionary (in
    document order), text ([None] when the element has no character data
    before its first child) and ordered children. *)
#[warnings="-register-all"]
Inductive Element : Type :=
  mkElement {
    tag : string;
    attrib : list (string * string);
    text : option string;
    children : list Element
  }.

(** [Element.get(key)]: the attribute value, or [None]. *)
Fixpoint dict_get {V : Type} (key : string) (d : list (string * V)) : option V :=
  match d with
  | [] => None
  | (k, v) :: d' => if String.eqb k key then Some v else dict_get key d'
  end.

Definition get (elem : Element) (key : string) : option string :=
  dict_get key (attrib elem).

(** [Element.iter()]: the element itself, then its descendants, in
    document (pre-)order. *)
Fixpoint iter (elem : Element) : list Element :=
  match elem with
  | mkElement _ _ _ cs =>
      elem :: (fix iter_children (l : list Element) : list Element :=
                 match l with
                 | [] => []
                 | c :: l' => iter c ++ iter_children l'
                 end) cs
  end.

(** The steps of the ElementPath language that the class uses.  A source
    path is written as the list of its steps:
      [.]            [Self]
      [tag]          [Child tag]
      [//tag]        [Descendant tag]
      [[@key='v']]   [AttrEq key v]
    with the separating [/] left implicit. *)
Inductive step : Type :=
| Self
| Child (t : string)
| Descendant (t : string)
| AttrEq (key value : string).

Definition path := list step.

(** One selector of [ElementPath]: [prepare_self], [prepare_child],
    [prepare_descendant] and the attribute-value predicate.  The
    descendant selector runs [elem.iter(tag)] and skips [elem] itself. *)
Definition select (s : step) (found : list Element) : list Element :=
  match s with
  | Self => found
  | Child t =>
      flat_map (λ elem, List.filter (λ e, String.eqb (tag e) t) (children elem)) found
  | Descendant t =>
      flat_map (λ elem, List.filter (λ e, String.eqb (tag e) t)
                          (flat_map iter (children elem))) found
  | AttrEq key value =>
      List.filter (λ elem, match get elem key with
                           | Some v => String.eqb v value
                           | None => false
                           end) found
  end.

(** [ElementPath.iterfind]: run the selectors left to right from [[elem]]. *)
Definition iterfind (elem : Element) (p : path) : list Element :=
  fold_left (λ found s, select s found) p [elem].

Definition findall (elem : Element) (p : path) : list Element := iterfind elem p.

Definition find (elem : Element) (p : path) : option Element := head (iterfind elem p).

(** [findtext] returns the text of the first match, the empty string when
    that element has no text, and [None] when nothing matches. *)
Definition findtext (elem : Element) (p : path) : option string :=
  match find elem p with
  | Some e => Some (match text e with Some s => s | None => "" end)
  | None => None
  end.

Definition leaf (t : string) (s : string) : Element := mkElement t [] (Some s) [].
Definition node (t : string) (cs : list Element) : Element := mkElement t [] None cs.

(** ** Python strings, integers and truthiness *)

(** [str(n)] for an [int]: the decimal numeral, with a leading [-] for a
    negative number. *)
Definition str_of_int (n : Z) : string := NilZero.string_of_int (Z.to_int n).

(** [sep.join(items)] on a list of strings. *)
Fixpoint str_join (sep : string) (items : list string) : string :=
  match items with
  | [] => ""
  | [x] => x
  | x :: items' => x +:+ sep +:+ str_join sep items'
  end.

(** [s.split(c)] for a one-character separator: the pieces between the
    occurrences of [c], always at least one piece. *)
Fixpoint str_split (c : ascii) (s : string) : list string :=
  match s with
  | EmptyString => [""]
  | String a s' =>
      if Ascii.eqb a c then "" :: str_split c s'
      else match str_split c s' with
           | [] => [String a ""]
           | piece :: pieces => String a piece :: pieces
           end
  end.

(** [c in s] for a character [c]. *)
Fixpoint contains (c : ascii) (s : string) : bool :=
  match s with
  | EmptyString => false
  | String a s' => Ascii.eqb a c || contains c s'
  end.

(** Truth value of an [Optional[str]]: [None] and the empty string are
    falsy. *)
Definition truthy_str (o : option string) : bool :=
  match o with
  | Some s => negb (String.eqb s "")
  | None => false
  end.

(** Truth value of an [Optional[List[int]]]: [None] and the empty list are
    falsy. *)
Definition truthy_list {A : Type} (o : option (list A)) : bool :=
  match o with
  | Some (_ :: _) => true
  | _ => false
  end.

Definition is_not_None {A : Type} (o : option A) : bool :=
  match o with
  | Some _ => true
  | None => false
  end.

(** [x or ''] on an [Optional[str]]. *)
Definition or_empty (x : option string) : string :=
  if truthy_str x then match x with Some s => s | None => "" end else "".

(** ** Attribute access and method calls on a possibly-[None] element *)

Definition NoneType_has_no (attribute : string) : exn :=
  AttributeError ("'NoneType' object has no attribute '" +:+ attribute +:+ "'").

(** [o.text] *)
Definition py_text (o : option Element) : result (option string) :=
  match o with
  | Some elem => Ok (text elem)
  | None => Raise (NoneType_has_no "text")
  end.

(** [o.get(key)] *)
Definition py_get (o : option Element) (key : string) : result (option string) :=
  match o with
  | Some elem => Ok (get elem key)
  | None => Raise (NoneType_has_no "get")
  end.

(** [o.find(p)] *)
Definition py_find (o : option Element) (p : path) : result (option Element) :=
  match o with
  | Some elem => Ok (find elem p)
  | None => Raise (NoneType_has_no "find")
  end.

(** [o.findall(p)] *)
Definition py_findall (o : option Element) (p : path) : result (list Element) :=
  match o with
  | Some elem => Ok (findall elem p)
  | None => Raise (NoneType_has_no "findall")
  end.

(** [o.findtext(p)] *)
Definition py_findtext (o : option Element) (p : path) : result (option string) :=
  match o with
  | Some elem => Ok (findtext elem p)
  | None => Raise (NoneType_has_no "findtext")
  end.

(** [sep.join(items)] where an item may be [None]: the first [None], at
    index [i], raises [TypeError]. *)
Fixpoint check_str_items (i : nat) (items : list (option string)) : result (list string) :=
  match items with
  | [] => Ok []
  | Some s :: items' => rest ← check_str_items (S i) items'; Ok (s :: rest)
  | None :: _ =>
      Raise (TypeError ("sequence item " +:+ str_of_int (Z.of_nat i)
                        +:+ ": expected str instance, NoneType found"))
  end.

Definition py_join (sep : string) (items : list (option string)) : result string :=
  strs ← check_str_items 0 items; Ok (str_join sep strs).

(** A [for x in xs:] loop whose body updates the accumulator [acc] and may
    raise. *)
Fixpoint for_in {A S : Type} (xs : list A) (acc : S) (body : S → A → result S) : result S :=
  match xs with
  | [] => Ok acc
  | x :: xs' => acc' ← body acc x; for_in xs' acc' body
  end.

(** ** Records and tables *)

(** A record is a Python [dict] from column names to [str] or [None], in
    insertion order. *)
Definition value := option string.
Definition dict := list (string * value).

(** A dict display [{k1: e1, k2: e2, ...}]: the entries are evaluated in
    order, and the first one that raises ends the evaluation. *)
Fixpoint dict_literal (entries : list (string * result value)) : result dict :=
  match entries with
  | [] => Ok []
  | (k, e) :: entries' =>
      v ← e; d ← dict_literal entries'; Ok ((k, v) :: d)
  end.

(** [d[key] = v]: overwrite in place, or append a new key. *)
Fixpoint dict_set (d : dict) (key : string) (v : value) : dict :=
  match d with
  | [] => [(key, v)]
  | (k, x) :: d' =>
      if String.eqb k key then (k, v) :: d' else (k, x) :: dict_set d' key v
  end.

(** A cell of a [pandas.DataFrame] built from dicts of strings: a string,
    or one of the two missing values, [None] and [NaN]. *)
Inductive cell : Type :=
| Null
| Str (s : string)
| NaN.

Definition cell_of_value (v : value) : cell :=
  match v with
  | Some s => Str s
  | None => Null
  end.

Record DataFrame : Type := mkDataFrame {
  columns : list string;
  data : list (list cell)
}.

(** [pd.DataFrame()] *)
Definition DataFrame_empty : DataFrame := mkDataFrame [] [].

Definition add_column (cols : list string) (k : string) : list string :=
  if existsb (String.eqb k) cols then cols else cols ++ [k].

(** The columns of [pd.DataFrame(list_of_dicts)]: the keys of all the
    dicts, in order of first appearance. *)
Definition union_keys (records : list dict) : list string :=
  fold_left (λ cols d, fold_left add_column (map fst d) cols) records [].

(** A column whose value is [None] in every dict.  pandas keeps such a
    column as it is (dtype [object]). *)
Definition column_is_None (records : list dict) (c : string) : bool :=
  forallb (λ d, match dict_get c d with
                | Some None => true
                | _ => false
                end) records.

(** The cell that pandas stores for the entry of a dict in a column: the
    string; [NaN] where the dict has no such key; and for [None], [None]
    in a column that is [None] throughout, [NaN] in any other column (a
    column that also holds a string becomes a string column, one that
    also lacks a key a float column, and both store [NaN] for a missing
    value). *)
Definition cell_in_column (all_None : bool) (entry : option value) : cell :=
  match entry with
  | Some (Some s) => Str s
  | Some None => if all_None then Null else NaN
  | None => NaN
  end.

Definition row_of_dict (records : list dict) (cols : list string) (d : dict) : list cell :=
  map (λ c, cell_in_column (column_is_None records c) (dict_get c d)) cols.

(** [pd.DataFrame(list_of_dicts)] *)
Definition DataFrame_of_dicts (records : list dict) : DataFrame :=
  let cols := union_keys records in
  mkDataFrame cols (map (row_of_dict records cols) records).

(** [pd.DataFrame(list_of_pairs, columns=cols)] *)
Definition DataFrame_of_pairs (rows : list (string * string)) (cols : list string) : DataFrame :=
  mkDataFrame cols (map (λ r, [Str (fst r); Str (snd r)]) rows).

(** The cell of row [i] in column [col]. *)
Fixpoint index_of (col : string) (cols : list string) : option nat :=
  match cols with
  | [] => None
  | c :: cols' => if String.eqb c col then Some 0%nat else S <$> index_of col cols'
  end.

Definition cell_at (df : DataFrame) (i : nat) (col : string) : option cell :=
  j ← index_of col (columns df); row ← data df !! i; row !! j.

(** ** The client class *)

Definition BASE_URL : string := "https://eventor.orienteering.asn.au/api".

Record EventorAPI : Type := mkEventorAPI {
  api_key : string;
  headers : list (string * string)
}.

(** [EventorAPI.__init__] *)
Definition EventorAPI_init (key : string) : EventorAPI :=
  mkEventorAPI key [("ApiKey", key)].

(** ** Record extractors *)

(** The conditional expression
    [x.find(p).text if x.find(q) is not None else None]. *)
Notation "a 'if_not_None' c" :=
  (if is_not_None c then a else Ok None) (at level 69, only parsing).

(** The dict display at the head of the loop body of
    [events_to_dataframe]. *)
Definition event_dict_display (event : Element) : result dict :=
  dict_literal [
    ("EventId", Ok (findtext event [Child "EventId"]));
    ("Name", Ok (findtext event [Child "Name"]));
    ("StartDate", Ok (findtext event [Child "StartDate"; Child "Date"]));
    ("StartClock", Ok (findtext event [Child "StartDate"; Child "Clock"]));
    ("FinishDate", Ok (findtext event [Child "FinishDate"; Child "Date"]));
    ("FinishClock", Ok (findtext event [Child "FinishDate"; Child "Clock"]));
    ("EventClassificationId", Ok (findtext event [Child "EventClassificationId"]));
    ("EventStatusId", Ok (findtext event [Child "EventStatusId"]));
    ("OrganisationId",
      py_text (find event [Self; Descendant "Organiser"; Child "OrganisationId"])
      if_not_None (find event [Self; Descendant "Organiser"]));
    ("WebURL", Ok (findtext event [Child "WebURL"]));
    ("PunchingUnitType",
      py_get (find event [Child "PunchingUnitType"]) "value"
      if_not_None (find event [Child "PunchingUnitType"]));
    ("DisciplineIds",
      joined ← py_join ", " (map text (findall event [Self; Descendant "DisciplineId"]));
      Ok (Some joined))
  ].

(** The body of the loop of [events_to_dataframe], up to the append: the
    dict built for one [Event] node. *)
Definition event_dict (event : Element) : result dict :=
  event_dict ← event_dict_display event;
  let event_race := find event [Self; Descendant "EventRace"] in
  match event_race with
  | Some event_race =>
      let event_dict := dict_set event_dict "EventRaceDistance" (get event_race "raceDistance") in
      let event_dict := dict_set event_dict "EventRaceId" (findtext event_race [Child "EventRaceId"]) in
      let event_dict := dict_set event_dict "EventRaceName"
                          (Some (or_empty (findtext event_race [Child "Name"]))) in
      let race_date := find event_race [Child "RaceDate"] in
      let event_dict :=
        match race_date with
        | Some race_date =>
            let event_dict := dict_set event_dict "RaceDate" (findtext race_date [Child "Date"]) in
            dict_set event_dict "RaceClock" (findtext race_date [Child "Clock"])
        | None =>
            let event_dict := dict_set event_dict "RaceDate" None in
            dict_set event_dict "RaceClock" None
        end in
      let event_center := find event_race [Self; Descendant "EventCenterPosition"] in
      let event_dict :=
        match event_center with
        | Some event_center =>
            let event_dict := dict_set event_dict "EventCenterX" (get event_center "x") in
            let event_dict := dict_set event_dict "EventCenterY" (get event_center "y") in
            dict_set event_dict "EventCenterUnit" (get event_center "unit")
        | None =>
            let event_dict := dict_set event_dict "EventCenterX" None in
            let event_dict := dict_set event_dict "EventCenterY" None in
            dict_set event_dict "EventCenterUnit" None
        end in
      Ok event_dict
  | None =>
      let event_dict := dict_set event_dict "EventRaceId" None in
      let event_dict := dict_set event_dict "EventRaceName" (Some "") in
      let event_dict := dict_set event_dict "RaceDate" None in
      let event_dict := dict_set event_dict "RaceClock" None in
      let event_dict := dict_set event_dict "EventCenterX" None in
      let event_dict := dict_set event_dict "EventCenterY" None in
      let event_dict := dict_set event_dict "EventCenterUnit" None in
      Ok event_dict
  end.

(** The loop shared by the extractors: build one dict per matched node and
    append it to the list. *)
Definition collect (nodes : list Element) (build : Element → result dict) : result (list dict) :=
  for_in nodes [] (λ acc elem, d ← build elem; Ok (acc ++ [d])).

Definition events_to_dataframe (self : EventorAPI) (events_data : option Element)
  : result DataFrame :=
  match events_data with
  | None => Ok DataFrame_empty
  | Some _ =>
      found ← py_findall events_data [Self; Descendant "Event"];
      events ← collect found event_dict;
      Ok (DataFrame_of_dicts events)
  end.

Definition org_dict (org : Element) : result dict :=
  dict_literal [
    ("OrganisationId", Ok (findtext org [Child "OrganisationId"]));
    ("Name", Ok (findtext org [Child "Name"]));
    ("ShortName", Ok (findtext org [Child "ShortName"]));
    ("MediaName", Ok (findtext org [Child "MediaName"]));
    ("OrganisationTypeId", Ok (findtext org [Child "OrganisationTypeId"]));
    ("CountryId",
      py_get (find org [Self; Descendant "Country"; Child "CountryId"]) "value"
      if_not_None (find org [Self; Descendant "Country"; Child "CountryId"]));
    ("Alpha3",
      py_get (find org [Self; Descendant "Country"; Child "Alpha3"]) "value"
      if_not_None (find org [Self; Descendant "Country"; Child "Alpha3"]));
    ("CountryName_en",
      py_text (find org [Self; Descendant "Country"; Child "Name"; AttrEq "languageId" "en"])
      if_not_None (find org [Self; Descendant "Country"; Child "Name"; AttrEq "languageId" "en"]));
    ("CountryName_sv",
      py_text (find org [Self; Descendant "Country"; Child "Name"; AttrEq "languageId" "sv"])
      if_not_None (find org [Self; Descendant "Country"; Child "Name"; AttrEq "languageId" "sv"]));
    ("Address_careOf",
      py_get (find org [Self; Descendant "Address"]) "careOf"
      if_not_None (find org [Self; Descendant "Address"]));
    ("Address_street",
      py_get (find org [Self; Descendant "Address"]) "street"
      if_not_None (find org [Self; Descendant "Address"]));
    ("Address_city",
      py_get (find org [Self; Descendant "Address"]) "city"
      if_not_None (find org [Self; Descendant "Address"]));
    ("Address_zipCode",
      py_get (find org [Self; Descendant "Address"]) "zipCode"
      if_not_None (find org [Self; Descendant "Address"]));
    ("AddressType",
      py_get (find org [Self; Descendant "AddressType"]) "value"
      if_not_None (find org [Self; Descendant "AddressType"]));
    ("Tele_phoneNumber",
      py_get (find org [Self; Descendant "Tele"]) "phoneNumber"
      if_not_None (find org [Self; Descendant "Tele"]));
    ("Tele_mobilePhoneNumber",
      py_get (find org [Self; Descendant "Tele"]) "mobilePhoneNumber"
      if_not_None (find org [Self; Descendant "Tele"]));
    ("Tele_mailAddress",
      py_get (find org [Self; Descendant "Tele"]) "mailAddress"
      if_not_None (find org [Self; Descendant "Tele"]));
    ("TeleType",
      py_get (find org [Self; Descendant "TeleType"]) "value"
      if_not_None (find org [Self; Descendant "TeleType"]));
    ("ParentOrganisationId",
      py_text (find org [Self; Descendant "ParentOrganisation"; Child "OrganisationId"])
      if_not_None (find org [Self; Descendant "ParentOrganisation"; Child "OrganisationId"]));
    ("OrganisationStatusId", Ok (findtext org [Child "OrganisationStatusId"]));
    ("ModifyDate",
      py_text (find org [Self; Descendant "ModifyDate"; Child "Date"])
      if_not_None (find org [Self; Descendant "ModifyDate"; Child "Date"]));
    ("ModifyClock",
      py_text (find org [Self; Descendant "ModifyDate"; Child "Clock"])
      if_not_None (find org [Self; Descendant "ModifyDate"; Child "Clock"]))
  ].

Definition organizations_to_dataframe (self : EventorAPI) (organizations_data : option Element)
  : result DataFrame :=
  found ← py_findall organizations_data [Self; Descendant "Organisation"];
  data ← collect found org_dict;
  Ok (DataFrame_of_dicts data).

Definition event_class_dict (event_class : Element) : result dict :=
  dict_literal [
    ("EventClassId", Ok (findtext event_class [Child "EventClassId"]));
    ("Name", Ok (findtext event_class [Child "Name"]));
    ("ClassShortName", Ok (findtext event_class [Child "ClassShortName"]));
    ("EventClassStatus",
      py_get (find event_class [Child "EventClassStatus"]) "value"
      if_not_None (find event_class [Child "EventClassStatus"]));
    ("ClassTypeId",
      py_text (find event_class [Self; Descendant "ClassType"; Child "ClassTypeId"])
      if_not_None (find event_class [Self; Descendant "ClassType"; Child "ClassTypeId"]));
    ("ClassTypeShortName",
      py_text (find event_class [Self; Descendant "ClassType"; Child "ShortName"])
      if_not_None (find event_class [Self; Descendant "ClassType"; Child "ShortName"]));
    ("ClassTypeName",
      py_text (find event_class [Self; Descendant "ClassType"; Child "Name"])
      if_not_None (find event_class [Self; Descendant "ClassType"; Child "Name"]));
    ("ExternalId", Ok (findtext event_class [Child "ExternalId"]));
    ("PunchingUnitType",
      py_get (find event_class [Child "PunchingUnitType"]) "value"
      if_not_None (find event_class [Child "PunchingUnitType"]));
    ("ClassRaceInfoId",
      py_text (find event_class [Self; Descendant "ClassRaceInfo"; Child "ClassRaceInfoId"])
      if_not_None (find event_class [Self; Descendant "ClassRaceInfo"; Child "ClassRaceInfoId"]));
    ("EventRaceId",
      py_text (find event_class [Self; Descendant "ClassRaceInfo"; Child "EventRaceId"])
      if_not_None (find event_class [Self; Descendant "ClassRaceInfo"; Child "EventRaceId"]));
    ("ClassRaceName",
      py_text (find event_class [Self; Descendant "ClassRaceInfo"; Child "Name"])
      if_not_None (find event_class [Self; Descendant "ClassRaceInfo"; Child "Name"]));
    ("ClassRaceStatus",
      py_get (find event_class [Self; Descendant "ClassRaceInfo"; Child "ClassRaceStatus"]) "value"
      if_not_None (find event_class [Self; Descendant "ClassRaceInfo"; Child "ClassRaceStatus"]));
    ("ClassRacePunchingUnitType",
      py_get (find event_class [Self; Descendant "ClassRaceInfo"; Child "PunchingUnitType"]) "value"
      if_not_None (find event_class [Self; Descendant "ClassRaceInfo"; Child "PunchingUnitType"]));
    ("MinRunners",
      py_get (find event_class [Self; Descendant "ClassRaceInfo"]) "minRunners"
      if_not_None (find event_class [Self; Descendant "ClassRaceInfo"]));
    ("MaxRunners",
      py_get (find event_class [Self; Descendant "ClassRaceInfo"]) "maxRunners"
      if_not_None (find event_class [Self; Descendant "ClassRaceInfo"]));
    ("NoOfEntries",
      py_get (find event_class [Self; Descendant "ClassRaceInfo"]) "noOfEntries"
      if_not_None (find event_class [Self; Descendant "ClassRaceInfo"]));
    ("NoOfStarts",
      py_get (find event_class [Self; Descendant "ClassRaceInfo"]) "noOfStarts"
      if_not_None (find event_class [Self; Descendant "ClassRaceInfo"]));
    ("Sex", Ok (get event_class "sex"));
    ("NumberOfEntries", Ok (get event_class "numberOfEntries"))
  ].

Definition event_classes_to_dataframe (self : EventorAPI) (event_classes_data : option Element)
  : result DataFrame :=
  found ← py_findall event_classes_data [Self; Descendant "EventClass"];
  data ← collect found event_class_dict;
  Ok (DataFrame_of_dicts data).

Definition entry_fee_dict (entry_fee : Element) : result dict :=
  dict_literal [
    ("EntryFeeId", Ok (findtext entry_fee [Child "EntryFeeId"]));
    ("Name", Ok (findtext entry_fee [Child "Name"]));
    ("Amount", Ok (findtext entry_fee [Child "Amount"]));
    ("Currency",
      py_get (find entry_fee [Child "Amount"]) "currency"
      if_not_None (find entry_fee [Child "Amount"]));
    ("ExternalFee", Ok (findtext entry_fee [Child "ExternalFee"]));
    ("FromDateOfBirth",
      py_text (find entry_fee [Self; Descendant "FromDateOfBirth"; Child "Date"])
      if_not_None (find entry_fee [Self; Descendant "FromDateOfBirth"; Child "Date"]));
    ("ToDateOfBirth",
      py_text (find entry_fee [Self; Descendant "ToDateOfBirth"; Child "Date"])
      if_not_None (find entry_fee [Self; Descendant "ToDateOfBirth"; Child "Date"]));
    ("EntryFeeGroupId", Ok (findtext entry_fee [Child "EntryFeeGroupId"]));
    ("TaxIncluded", Ok (get entry_fee "taxIncluded"));
    ("EntryFeeType", Ok (get entry_fee "entryFeeType"));
    ("Type", Ok (get entry_fee "type"))
  ].

Definition entryfees_to_dataframe (self : EventorAPI) (entryfees_data : option Element)
  : result DataFrame :=
  found ← py_findall entryfees_data [Self; Descendant "EntryFee"];
  data ← collect found entry_fee_dict;
  Ok (DataFrame_of_dicts data).

Definition entry_dict (entry : Element) : result dict :=
  dict_literal [
    ("EntryId", Ok (findtext entry [Child "EntryId"]));
    ("CompetitorId",
      py_text (find entry [Self; Descendant "Competitor"; Child "CompetitorId"])
      if_not_None (find entry [Self; Descendant "Competitor"; Child "CompetitorId"]));
    ("PersonId",
      py_text (find entry [Self; Descendant "Competitor"; Child "PersonId"])
      if_not_None (find entry [Self; Descendant "Competitor"; Child "PersonId"]));
    ("OrganisationId",
      py_text (find entry [Self; Descendant "Competitor"; Child "OrganisationId"])
      if_not_None (find entry [Self; Descendant "Competitor"; Child "OrganisationId"]));
    ("CCardId",
      py_text (find entry [Self; Descendant "CCard"; Child "CCardId"])
      if_not_None (find entry [Self; Descendant "CCard"; Child "CCardId"]));
    ("PunchingUnitType",
      py_get (find entry [Self; Descendant "CCard"; Child "PunchingUnitType"]) "value"
      if_not_None (find entry [Self; Descendant "CCard"; Child "PunchingUnitType"]));
    ("EventClassId",
      py_text (find entry [Self; Descendant "EntryClass"; Child "EventClassId"])
      if_not_None (find entry [Self; Descendant "EntryClass"; Child "EventClassId"]));
    ("EventId", Ok (findtext entry [Child "EventId"]));
    ("EventRaceId", Ok (findtext entry [Child "EventRaceId"]));
    ("BibNumber", Ok (findtext entry [Child "BibNumber"]));
    ("EntryDate",
      py_text (find entry [Self; Descendant "EntryDate"; Child "Date"])
      if_not_None (find entry [Self; Descendant "EntryDate"; Child "Date"]));
    ("EntryClock",
      py_text (find entry [Self; Descendant "EntryDate"; Child "Clock"])
      if_not_None (find entry [Self; Descendant "EntryDate"; Child "Clock"]));
    ("EntryFeeGroupId", Ok (findtext entry [Child "EntryFeeGroupId"]));
    ("CreatedBy",
      py_text (find entry [Self; Descendant "CreatedBy"; Child "PersonId"])
      if_not_None (find entry [Self; Descendant "CreatedBy"; Child "PersonId"]));
    ("ModifyDate",
      py_text (find entry [Self; Descendant "ModifyDate"; Child "Date"])
      if_not_None (find entry [Self; Descendant "ModifyDate"; Child "Date"]));
    ("ModifyClock",
      py_text (find entry [Self; Descendant "ModifyDate"; Child "Clock"])
      if_not_None (find entry [Self; Descendant "ModifyDate"; Child "Clock"]));
    ("ModifiedBy",
      py_text (find entry [Self; Descendant "ModifiedBy"; Child "PersonId"])
      if_not_None (find entry [Self; Descendant "ModifiedBy"; Child "PersonId"]))
  ].

Definition entries_to_dataframe (self : EventorAPI) (entries_data : option Element)
  : result DataFrame :=
  found ← py_findall entries_data [Self; Descendant "Entry"];
  data ← collect found entry_dict;
  Ok (DataFrame_of_dicts data).

Definition competitor_count_dict (competitor_count : Element) : result dict :=
  dict_literal [
    ("eventId", Ok (get competitor_count "eventId"));
    ("numberOfEntries", Ok (get competitor_count "numberOfEntries"));
    ("numberOfStarts", Ok (get competitor_count "numberOfStarts"))
  ].

Definition competitor_count_to_dataframe (self : EventorAPI)
    (competitor_count_data : option Element) : result DataFrame :=
  found ← py_findall competitor_count_data [Self; Descendant "CompetitorCount"];
  data ← collect found competitor_count_dict;
  Ok (DataFrame_of_dicts data).

(** The dict built for one [Membership] node; the three organisation
    values were read once, before the loop. *)
Definition membership_dict (organisation_id organisation_name organisation_shortname : value)
    (membership : Element) : result dict :=
  dict_literal [
    ("OrganisationId", Ok organisation_id);
    ("OrganisationName", Ok organisation_name);
    ("OrganisationShortName", Ok organisation_shortname);
    ("MembershipId", Ok (findtext membership [Child "Id"]));
    ("Year", Ok (findtext membership [Child "Year"]));
    ("TypeId",
      py_text (find membership [Self; Descendant "Type"; Child "Id"])
      if_not_None (find membership [Self; Descendant "Type"; Child "Id"]));
    ("TypeName",
      py_text (find membership [Self; Descendant "Type"; Child "Name"])
      if_not_None (find membership [Self; Descendant "Type"; Child "Name"]));
    ("PersonId",
      py_text (find membership [Self; Descendant "Person"; Child "Id"])
      if_not_None (find membership [Self; Descendant "Person"; Child "Id"]));
    ("FirstName",
      py_text (find membership [Self; Descendant "Person"; Child "FirstName"])
      if_not_None (find membership [Self; Descendant "Person"; Child "FirstName"]));
    ("LastName",
      py_text (find membership [Self; Descendant "Person"; Child "LastName"])
      if_not_None (find membership [Self; Descendant "Person"; Child "LastName"]));
    ("BirthDate",
      py_text (find membership [Self; Descendant "Person"; Child "BirthDate"])
      if_not_None (find membership [Self; Descendant "Person"; Child "BirthDate"]));
    ("Sex",
      py_text (find membership [Self; Descendant "Person"; Child "Sex"])
      if_not_None (find membership [Self; Descendant "Person"; Child "Sex"]));
    ("PaidTime", Ok (findtext membership [Child "PaidTime"]))
  ].

Definition memberships_to_dataframe (self : EventorAPI) (memberships_data : option Element)
  : result DataFrame :=
  organisation ← py_find memberships_data [Self; Descendant "Organisation"];
  organisation_id ← py_findtext organisation [Child "Id"];
  organisation_name ← py_findtext organisation [Child "Name"];
  organisation_shortname ← py_findtext organisation [Child "ShortName"];
  found ← py_findall memberships_data [Self; Descendant "Membership"];
  data ← collect found (membership_dict organisation_id organisation_name organisation_shortname);
  Ok (DataFrame_of_dicts data).

(** ** The request client *)

(** A value of the query-parameter mapping: the code stores strings,
    integers and booleans in it. *)
Inductive pyval : Type :=
| VStr (s : string)
| VInt (n : Z)
| VBool (b : bool).

(** The arguments of one [requests.get(url, headers=..., params=...)]. *)
Record Request : Type := mkRequest {
  url : string;
  request_headers : list (string * string);
  params : option (gmap string pyval)
}.

(** What the code reads of a [requests.Response]. *)
Record Response : Type := mkResponse {
  status_code : Z;
  reason : string;
  response_url : string;
  response_text : string
}.

(** The observable state around the client: the GET requests issued so
    far and the records of the root logger. *)
Record World : Type := mkWorld {
  sent : list Request;
  log : list string
}.

(** A method of the client: a computation over the world that returns or
    raises. *)
Definition Client (A : Type) : Type := World → result A * World.

Definition client_ret {A : Type} (a : A) : Client A := λ w, (Ok a, w).

Definition client_bind {A B : Type} (m : Client A) (f : A → Client B) : Client B :=
  λ w, match m w with
       | (Ok a, w') => f a w'
       | (Raise e, w') => (Raise e, w')
       end.

Definition client_raise {A : Type} (e : exn) : Client A := λ w, (Raise e, w).

(** A pure computation that may raise, run inside the client. *)
Definition lift {A : Type} (r : result A) : Client A := λ w, (r, w).

(** [try: body except <class> as e: handler e] *)
Definition try_except {A : Type} (body : Client A) (class : exn → bool)
    (handler : exn → Client A) : Client A :=
  λ w, match body w with
       | (Raise e, w') => if class e then handler e w' else (Raise e, w')
       | (Ok a, w') => (Ok a, w')
       end.

Declare Scope client_scope.
Delimit Scope client_scope with client.
Notation "x <- m ;; k" := (client_bind m (λ x, k))
  (at level 100, m at next level, right associativity) : client_scope.
Notation "m ;; k" := (client_bind m (λ _, k))
  (at level 100, right associativity) : client_scope.

Definition is_RequestException (e : exn) : bool :=
  match e with
  | RequestException _ => true
  | _ => false
  end.

Definition is_ParseError (e : exn) : bool :=
  match e with
  | ParseError _ => true
  | _ => false
  end.

(** [str(e)] *)
Definition str_of_exn (e : exn) : string :=
  match e with
  | RequestException msg | ParseError msg | AttributeError msg | TypeError msg => msg
  end.

(** [logging.error(msg)] *)
Definition logging_error (msg : string) : Client unit :=
  λ w, (Ok tt, mkWorld (sent w) (log w ++ [msg])).

(** [Response.raise_for_status()]: an [HTTPError] for a status in
    400..599, nothing otherwise.  [http_error_msg] is the local variable
    of that name. *)
Definition http_error_msg (response : Response) : string :=
  if (400 <=? status_code response) && (status_code response <? 500) then
    str_of_int (status_code response) +:+ " Client Error: " +:+ reason response
      +:+ " for url: " +:+ response_url response
  else if (500 <=? status_code response) && (status_code response <? 600) then
    str_of_int (status_code response) +:+ " Server Error: " +:+ reason response
      +:+ " for url: " +:+ response_url response
  else "".

Definition raise_for_status (response : Response) : Client unit :=
  if String.eqb (http_error_msg response) "" then client_ret tt
  else client_raise (RequestException (http_error_msg response)).

(** [f"{x}"] for an [Optional[str]]. *)
Definition py_str (x : option string) : string :=
  match x with
  | Some s => s
  | None => "None"
  end.

(** [map(str, ids)] for an [Optional[List[int]]] that is not [None]. *)
Definition map_str (ids : option (list Z)) : list string :=
  match ids with
  | Some l => map str_of_int l
  | None => []
  end.

Section Service.

(** The remote service and the transport: what [requests.get] does with a
    request, given the requests already made.  [inl msg] is a
    [RequestException] raised by the call itself (connection error,
    timeout, ...); [inr response] is a response of any status. *)
Variable server : list Request → Request → string + Response.

(** [ET.fromstring]: the parsed root element, or the message of the
    [ParseError]. *)
Variable fromstring : string → string + Element.

Definition requests_get (url : string) (headers : list (string * string))
    (params : option (gmap string pyval)) : Client Response :=
  λ w, let request := mkRequest url headers params in
       let w' := mkWorld (sent w ++ [request]) (log w) in
       match server (sent w) request with
       | inl msg => (Raise (RequestException msg), w')
       | inr response => (Ok response, w')
       end.

Definition ET_fromstring (body : string) : Client Element :=
  match fromstring body with
  | inl msg => client_raise (ParseError msg)
  | inr root => client_ret root
  end.

Local Open Scope client_scope.

Definition _make_request (self : EventorAPI) (endpoint : string)
    (params : option (gmap string pyval)) : Client (option Element) :=
  let url := BASE_URL +:+ "/" +:+ endpoint in
  try_except
    (response <- requests_get url (headers self) params;;
     raise_for_status response;;
     try_except
       (root <- ET_fromstring (response_text response);;
        client_ret (Some root))
       is_ParseError
       (λ e, logging_error ("XMLParseError: " +:+ str_of_exn e +:+ ". Response text: "
                            +:+ response_text response);;
             client_ret None))
    is_RequestException
    (λ e, logging_error ("API request failed: " +:+ str_of_exn e);;
          client_raise e).

Definition get_events (self : EventorAPI) (from_date to_date : option string)
    (classification_ids : option (list Z)) : Client (option Element) :=
  let params : gmap string pyval := ∅ in
  let params := if truthy_str from_date
                then <["fromDate" := VStr (py_str from_date +:+ " 00:00:00")]> params
                else params in
  let params := if truthy_str to_date
                then <["toDate" := VStr (py_str to_date +:+ " 23:59:59")]> params
                else params in
  let params := if truthy_list classification_ids
                then <["classificationIds" := VStr (str_join "," (map_str classification_ids))]> params
                else params in
  _make_request self "events" (Some params).

Definition get_organizations (self : EventorAPI) : Client (option Element) :=
  _make_request self "organisations" None.

Definition get_event_classes (self : EventorAPI) (event_id : Z) (include_entry_fees : bool)
  : Client (option Element) :=
  let params : gmap string pyval :=
    <["includeEntryFees" := VBool include_entry_fees]> (<["eventId" := VInt event_id]> ∅) in
  _make_request self "eventclasses" (Some params).

Definition get_entryfees (self : EventorAPI) (event_id : Z) : Client (option Element) :=
  _make_request self ("entryfees/events/" +:+ str_of_int event_id) None.

Definition get_entries (self : EventorAPI)
    (organisation_ids event_ids event_class_ids : option (list Z))
    (from_event_date to_event_date from_entry_date to_entry_date
     from_modify_date to_modify_date : option string)
    (include_entry_fees include_person_element include_organisation_element
     include_event_element : bool) : Client (option Element) :=
  let params : gmap string pyval := ∅ in
  let params := if truthy_list organisation_ids
                then <["organisationIds" := VStr (str_join "," (map_str organisation_ids))]> params
                else params in
  let params := if truthy_list event_ids
                then <["eventIds" := VStr (str_join "," (map_str event_ids))]> params
                else params in
  let params := if truthy_list event_class_ids
                then <["eventClassIds" := VStr (str_join "," (map_str event_class_ids))]> params
                else params in
  let params := if truthy_str from_event_date
                then <["fromEventDate" := VStr (py_str from_event_date +:+ " 00:00:00")]> params
                else params in
  let params := if truthy_str to_event_date
                then <["toEventDate" := VStr (py_str to_event_date +:+ " 23:59:59")]> params
                else params in
  let params := if truthy_str from_entry_date
                then <["fromEntryDate" := VStr (py_str from_entry_date +:+ " 00:00:00")]> params
                else params in
  let params := if truthy_str to_entry_date
                then <["toEntryDate" := VStr (py_str to_entry_date +:+ " 23:59:59")]> params
                else params in
  let params := if truthy_str from_modify_date
                then <["fromModifyDate" := VStr (py_str from_modify_date +:+ " 00:00:00")]> params
                else params in
  let params := if truthy_str to_modify_date
                then <["toModifyDate" := VStr (py_str to_modify_date +:+ " 23:59:59")]> params
                else params in
  let params := <["includeEntryFees" := VBool include_entry_fees]> params in
  let params := <["includePersonElement" := VBool include_person_element]> params in
  let params := <["includeOrganisationElement" := VBool include_organisation_element]> params in
  let params := <["includeEventElement" := VBool include_event_element]> params in
  _make_request self "entries" (Some params).

Definition get_competitor_count (self : EventorAPI)
    (organisation_ids event_ids person_ids : option (list Z)) : Client (option Element) :=
  let params : gmap string pyval := ∅ in
  let params := if is_not_None organisation_ids
                then <["organisationIds" := VStr (str_join "," (map_str organisation_ids))]> params
                else params in
  let params := if is_not_None event_ids
                then <["eventIds" := VStr (str_join "," (map_str event_ids))]> params
                else params in
  let params := if is_not_None person_ids
                then <["personIds" := VStr (str_join "," (map_str person_ids))]> params
                else params in
  _make_request self "competitorcount" (Some params).

Definition get_memberships (self : EventorAPI) (organisation_id year : Z)
    (include_child_organisations include_contact_details : bool) : Client (option Element) :=
  let params : gmap string pyval :=
    <["includeContactDetails" := VBool include_contact_details]>
      (<["includeChildOrganisations" := VBool include_child_organisations]>
         (<["year" := VInt year]> (<["organisationId" := VInt organisation_id]> ∅))) in
  _make_request self "memberships" (Some params).

(** The inner loop of [extract_disciplines_from_events]: add the
    (id, name) pairs of one event to the set. *)
Definition add_disciplines (disciplines : gset (string * string)) (event : Element)
  : gset (string * string) :=
  fold_left
    (λ disciplines discipline,
       let discipline_id := findtext discipline [Child "DisciplineId"] in
       let name := findtext discipline [Child "Name"] in
       if truthy_str discipline_id && truthy_str name
       then {[ (py_str discipline_id, py_str name) ]} ∪ disciplines
       else disciplines)
    (findall event [Self; Descendant "Discipline"]) disciplines.

Definition extract_disciplines_from_events (self : EventorAPI)
    (from_date to_date : option string) : Client DataFrame :=
  events_data <- get_events self from_date to_date None;;
  events <- lift (py_findall events_data [Self; Descendant "Event"]);;
  let disciplines := fold_left add_disciplines events ∅ in
  client_ret (DataFrame_of_pairs (elements disciplines) ["DisciplineId"; "Name"]).

End Service.

(** The value that the last request issued by [c], run from the world
    [w], carries for the query parameter [key]. *)
Definition query_of {A : Type} (c : Client A) (w : World) (key : string) : option pyval :=
  request ← last (sent (snd (c w)));
  mapping ← params request;
  mapping !! key.

(** ** The seven extractors as one family *)

Inductive extractor : Type :=
| Events
| Organizations
| EventClasses
| EntryFees
| Entries
| CompetitorCounts
| Memberships.

Definition extract (x : extractor) : EventorAPI → option Element → result DataFrame :=
  match x with
  | Events => events_to_dataframe
  | Organizations => organizations_to_dataframe
  | EventClasses => event_classes_to_dataframe
  | EntryFees => entryfees_to_dataframe
  | Entries => entries_to_dataframe
  | CompetitorCounts => competitor_count_to_dataframe
  | Memberships => memberships_to_dataframe
  end.

(** ** Field-spec tables

    The specification describes each extractor as one generic routine
    driven by a table of (output column, lookup path, lookup kind)
    triples.  This section gives that description: a small language of
    lookups, its evaluation at a node, and one table per extractor.  The
    theorems prove that each extractor above computes what its table
    says. *)

(** The lookup kinds: the node's own text or attribute, the text of a
    child found by path ([findtext]), a lookup inside a nested group
    located by path, a value with the empty string as fallback, and the
    texts of all matches joined with a separator. *)
Inductive lookup_kind : Type :=
| OwnText
| OwnAttr (a : string)
| ChildText (p : path)
| Within (p : path) (l : lookup_kind)
| OrEmpty (l : lookup_kind)
| Joined (sep : string) (p : path).

Fixpoint lookup_value (e : Element) (l : lookup_kind) : value :=
  match l with
  | OwnText => text e
  | OwnAttr a => get e a
  | ChildText p => findtext e p
  | Within p l' =>
      match find e p with
      | Some n => lookup_value n l'
      | None => None
      end
  | OrEmpty l' => Some (or_empty (lookup_value e l'))
  | Joined sep p =>
      Some (str_join sep (map (λ n, match text n with Some s => s | None => "" end)
                            (findall e p)))
  end.


Definition field_spec : Type := list (string * lookup_kind).

Definition record_of_spec (spec : field_spec) (e : Element) : dict :=
  map (λ f, (fst f, lookup_value e (snd f))) spec.

Definition NodeText (p : path) : lookup_kind := Within p OwnText.
Definition NodeAttr (p : path) (a : string) : lookup_kind := Within p (OwnAttr a).

Definition organization_fields : field_spec := [
  ("OrganisationId", ChildText [Child "OrganisationId"]);
  ("Name", ChildText [Child "Name"]);
  ("ShortName", ChildText [Child "ShortName"]);
  ("MediaName", ChildText [Child "MediaName"]);
  ("OrganisationTypeId", ChildText [Child "OrganisationTypeId"]);
  ("CountryId", NodeAttr [Self; Descendant "Country"; Child "CountryId"] "value");
  ("Alpha3", NodeAttr [Self; Descendant "Country"; Child "Alpha3"] "value");
  ("CountryName_en", NodeText [Self; Descendant "Country"; Child "Name"; AttrEq "languageId" "en"]);
  ("CountryName_sv", NodeText [Self; Descendant "Country"; Child "Name"; AttrEq "languageId" "sv"]);
  ("Address_careOf", NodeAttr [Self; Descendant "Address"] "careOf");
  ("Address_street", NodeAttr [Self; Descendant "Address"] "street");
  ("Address_city", NodeAttr [Self; Descendant "Address"] "city");
  ("Address_zipCode", NodeAttr [Self; Descendant "Address"] "zipCode");
  ("AddressType", NodeAttr [Self; Descendant "AddressType"] "value");
  ("Tele_phoneNumber", NodeAttr [Self; Descendant "Tele"] "phoneNumber");
  ("Tele_mobilePhoneNumber", NodeAttr [Self; Descendant "Tele"] "mobilePhoneNumber");
  ("Tele_mailAddress", NodeAttr [Self; Descendant "Tele"] "mailAddress");
  ("TeleType", NodeAttr [Self; Descendant "TeleType"] "value");
  ("ParentOrganisationId", NodeText [Self; Descendant "ParentOrganisation"; Child "OrganisationId"]);
  ("OrganisationStatusId", ChildText [Child "OrganisationStatusId"]);
  ("ModifyDate", NodeText [Self; Descendant "ModifyDate"; Child "Date"]);
  ("ModifyClock", NodeText [Self; Descendant "ModifyDate"; Child "Clock"])
].

Definition event_class_fields : field_spec := [
  ("EventClassId", ChildText [Child "EventClassId"]);
  ("Name", ChildText [Child "Name"]);
  ("ClassShortName", ChildText [Child "ClassShortName"]);
  ("EventClassStatus", NodeAttr [Child "EventClassStatus"] "value");
  ("ClassTypeId", NodeText [Self; Descendant "ClassType"; Child "ClassTypeId"]);
  ("ClassTypeShortName", NodeText [Self; Descendant "ClassType"; Child "ShortName"]);
  ("ClassTypeName", NodeText [Self; Descendant "ClassType"; Child "Name"]);
  ("ExternalId", ChildText [Child "ExternalId"]);
  ("PunchingUnitType", NodeAttr [Child "PunchingUnitType"] "value");
  ("ClassRaceInfoId", NodeText [Self; Descendant "ClassRaceInfo"; Child "ClassRaceInfoId"]);
  ("EventRaceId", NodeText [Self; Descendant "ClassRaceInfo"; Child "EventRaceId"]);
  ("ClassRaceName", NodeText [Self; Descendant "ClassRaceInfo"; Child "Name"]);
  ("ClassRaceStatus", NodeAttr [Self; Descendant "ClassRaceInfo"; Child "ClassRaceStatus"] "value");
  ("ClassRacePunchingUnitType",
     NodeAttr [Self; Descendant "ClassRaceInfo"; Child "PunchingUnitType"] "value");
  ("MinRunners", NodeAttr [Self; Descendant "ClassRaceInfo"] "minRunners");
  ("MaxRunners", NodeAttr [Self; Descendant "ClassRaceInfo"] "maxRunners");
  ("NoOfEntries", NodeAttr [Self; Descendant "ClassRaceInfo"] "noOfEntries");
  ("NoOfStarts", NodeAttr [Self; Descendant "ClassRaceInfo"] "noOfStarts");
  ("Sex", OwnAttr "sex");
  ("NumberOfEntries", OwnAttr "numberOfEntries")
].

Definition entry_fee_fields : field_spec := [
  ("EntryFeeId", ChildText [Child "EntryFeeId"]);
  ("Name", ChildText [Child "Name"]);
  ("Amount", ChildText [Child "Amount"]);
  ("Currency", NodeAttr [Child "Amount"] "currency");
  ("ExternalFee", ChildText [Child "ExternalFee"]);
  ("FromDateOfBirth", NodeText [Self; Descendant "FromDateOfBirth"; Child "Date"]);
  ("ToDateOfBirth", NodeText [Self; Descendant "ToDateOfBirth"; Child "Date"]);
  ("EntryFeeGroupId", ChildText [Child "EntryFeeGroupId"]);
  ("TaxIncluded", OwnAttr "taxIncluded");
  ("EntryFeeType", OwnAttr "entryFeeType");
  ("Type", OwnAttr "type")
].

Definition entry_fields : field_spec := [
  ("EntryId", ChildText [Child "EntryId"]);
  ("CompetitorId", NodeText [Self; Descendant "Competitor"; Child "CompetitorId"]);
  ("PersonId", NodeText [Self; Descendant "Competitor"; Child "PersonId"]);
  ("OrganisationId", NodeText [Self; Descendant "Competitor"; Child "OrganisationId"]);
  ("CCardId", NodeText [Self; Descendant "CCard"; Child "CCardId"]);
  ("PunchingUnitType", NodeAttr [Self; Descendant "CCard"; Child "PunchingUnitType"] "value");
  ("EventClassId", NodeText [Self; Descendant "EntryClass"; Child "EventClassId"]);
  ("EventId", ChildText [Child "EventId"]);
  ("EventRaceId", ChildText [Child "EventRaceId"]);
  ("BibNumber", ChildText [Child "BibNumber"]);
  ("EntryDate", NodeText [Self; Descendant "EntryDate"; Child "Date"]);
  ("EntryClock", NodeText [Self; Descendant "EntryDate"; Child "Clock"]);
  ("EntryFeeGroupId", ChildText [Child "EntryFeeGroupId"]);
  ("CreatedBy", NodeText [Self; Descendant "CreatedBy"; Child "PersonId"]);
  ("ModifyDate", NodeText [Self; Descendant "ModifyDate"; Child "Date"]);
  ("ModifyClock", NodeText [Self; Descendant "ModifyDate"; Child "Clock"]);
  ("ModifiedBy", NodeText [Self; Descendant "ModifiedBy"; Child "PersonId"])
].

Definition competitor_count_fields : field_spec := [
  ("eventId", OwnAttr "eventId");
  ("numberOfEntries", OwnAttr "numberOfEntries");
  ("numberOfStarts", OwnAttr "numberOfStarts")
].

(** The fields that a membership record reads from the [Membership] node;
    the three organisation fields come before them. *)
Definition membership_fields : field_spec := [
  ("MembershipId", ChildText [Child "Id"]);
  ("Year", ChildText [Child "Year"]);
  ("TypeId", NodeText [Self; Descendant "Type"; Child "Id"]);
  ("TypeName", NodeText [Self; Descendant "Type"; Child "Name"]);
  ("PersonId", NodeText [Self; Descendant "Person"; Child "Id"]);
  ("FirstName", NodeText [Self; Descendant "Person"; Child "FirstName"]);
  ("LastName", NodeText [Self; Descendant "Person"; Child "LastName"]);
  ("BirthDate", NodeText [Self; Descendant "Person"; Child "BirthDate"]);
  ("Sex", NodeText [Self; Descendant "Person"; Child "Sex"]);
  ("PaidTime", ChildText [Child "PaidTime"])
].

Definition organisation_identity_fields : field_spec := [
  ("OrganisationId", ChildText [Child "Id"]);
  ("OrganisationName", ChildText [Child "Name"]);
  ("OrganisationShortName", ChildText [Child "ShortName"])
].

(** The fields of an event record outside the race group. *)
Definition event_base_fields : field_spec := [
  ("EventId", ChildText [Child "EventId"]);
  ("Name", ChildText [Child "Name"]);
  ("StartDate", ChildText [Child "StartDate"; Child "Date"]);
  ("StartClock", ChildText [Child "StartDate"; Child "Clock"]);
  ("FinishDate", ChildText [Child "FinishDate"; Child "Date"]);
  ("FinishClock", ChildText [Child "FinishDate"; Child "Clock"]);
  ("EventClassificationId", ChildText [Child "EventClassificationId"]);
  ("EventStatusId", ChildText [Child "EventStatusId"]);
  ("OrganisationId", NodeText [Self; Descendant "Organiser"; Child "OrganisationId"]);
  ("WebURL", ChildText [Child "WebURL"]);
  ("PunchingUnitType", NodeAttr [Child "PunchingUnitType"] "value");
  ("DisciplineIds", Joined ", " [Self; Descendant "DisciplineId"])
].

(** The fields of the race group of an event record, without
    [EventRaceDistance]. *)
Definition event_race_fields : field_spec := [
  ("EventRaceId", Within [Self; Descendant "EventRace"] (ChildText [Child "EventRaceId"]));
  ("EventRaceName", OrEmpty (Within [Self; Descendant "EventRace"] (ChildText [Child "Name"])));
  ("RaceDate", Within [Self; Descendant "EventRace"] (Within [Child "RaceDate"] (ChildText [Child "Date"])));
  ("RaceClock", Within [Self; Descendant "EventRace"] (Within [Child "RaceDate"] (ChildText [Child "Clock"])));
  ("EventCenterX",
     Within [Self; Descendant "EventRace"] (Within [Self; Descendant "EventCenterPosition"] (OwnAttr "x")));
  ("EventCenterY",
     Within [Self; Descendant "EventRace"] (Within [Self; Descendant "EventCenterPosition"] (OwnAttr "y")));
  ("EventCenterUnit",
     Within [Self; Descendant "EventRace"] (Within [Self; Descendant "EventCenterPosition"] (OwnAttr "unit")))
].

Definition event_race_distance_field : field_spec := [
  ("EventRaceDistance", NodeAttr [Self; Descendant "EventRace"] "raceDistance")
].

(** The fields of the dict built for an event, with or without an
    [EventRace] group. *)
Definition event_fields (has_race : bool) : field_spec :=
  event_base_fields
  ++ (if has_race then event_race_distance_field else [])
  ++ event_race_fields.

(** The full fixed column set of the events table, as the specification
    has it. *)
Definition event_columns : list string :=
  map fst (event_base_fields ++ event_race_distance_field ++ event_race_fields).

(** The two conditions under which the dict display of an event does not
    raise: an event with an [Organiser] has an [OrganisationId] under it,
    and every [DisciplineId] has text. *)
Definition organiser_has_id (event : Element) : bool :=
  negb (is_not_None (find event [Self; Descendant "Organiser"]))
  || is_not_None (find event [Self; Descendant "Organiser"; Child "OrganisationId"]).

Definition discipline_ids_have_text (event : Element) : bool :=
  forallb (λ d, is_not_None (text d)) (findall event [Self; Descendant "DisciplineId"]).

(** The field-spec table of an extractor whose records are read from the
    matched node alone, and the repeating node it matches. *)
Definition fields (x : extractor) : field_spec :=
  match x with
  | Events => event_base_fields ++ event_race_fields
  | Organizations => organization_fields
  | EventClasses => event_class_fields
  | EntryFees => entry_fee_fields
  | Entries => entry_fields
  | CompetitorCounts => competitor_count_fields
  | Memberships => membership_fields
  end.

Definition repeating_node (x : extractor) : path :=
  match x with
  | Events => [Self; Descendant "Event"]
  | Organizations => [Self; Descendant "Organisation"]
  | EventClasses => [Self; Descendant "EventClass"]
  | EntryFees => [Self; Descendant "EntryFee"]
  | Entries => [Self; Descendant "Entry"]
  | CompetitorCounts => [Self; Descendant "CompetitorCount"]
  | Memberships => [Self; Descendant "Membership"]
  end.


(** An event carries the discipline pair (id, name) when its one
    [Discipline] node has that id and that name, both non-empty. *)
Definition carries_discipline (event : Element) (pair : string * string) : Prop :=
  ∃ discipline,
    findall event [Self; Descendant "Discipline"] = [discipline]
    ∧ findtext discipline [Child "DisciplineId"] = Some (fst pair)
    ∧ findtext discipline [Child "Name"] = Some (snd pair)
    ∧ fst pair ≠ "" ∧ snd pair ≠ "".

(** The trees on which an extractor is not exposed to its unguarded
    lookups: every event with an [Organiser] has an [OrganisationId] under
    it and every [DisciplineId] has text; a memberships tree has an
    [Organisation] node. *)
Definition guarded (x : extractor) (t : Element) : Prop :=
  match x with
  | Events =>
      ∀ event, event ∈ findall t [Self; Descendant "Event"] →
               organiser_has_id event = true ∧ discipline_ids_have_text event = true
  | Memberships => find t [Self; Descendant "Organisation"] ≠ None
  | _ => True
  end.

(** ** Sample data *)

(** A service that answers every request with the same body, and the
    parse of that body. *)
Definition sample_event (discipline_id name : string) : Element :=
  node "Event" [node "Discipline" [leaf "DisciplineId" discipline_id; leaf "Name" name]].

Definition sample_events : Element :=
  node "EventList" [sample_event "1" "Foot"; sample_event "1" "Foot"; sample_event "2" "MTB"].

Definition sample_server : list Request → Request → string + Response :=
  λ _ request, inr (mkResponse 200 "OK" (url request) "<EventList>...</EventList>").

Definition sample_fromstring : string → string + Element :=
  λ body, if String.eqb body "" then inl "no element found: line 1, column 0"
          else inr sample_events.

Definition sample_memberships : Element :=
  node "MembershipList"
    [node "Organisation" [leaf "Id" "7"; leaf "Name" "Acme"];
     node "Membership" [leaf "Id" "1"; leaf "Year" "2024"];
     node "Membership" [leaf "Id" "2"; leaf "Year" "2024"]].

(** ** Column sets *)

(** The columns of the table of an extractor whose records all have the
    same keys: the keys of its field-spec table, after the three
    organisation columns for memberships. *)
Definition table_columns (x : extractor) : list string :=
  match x with
  | Memberships => map fst (organisation_identity_fields ++ membership_fields)
  | _ => map fst (fields x)
  end.

(** ** Diagnostic printing ([src/xml_utils.py])

    A string is a sequence of code points below 256. *)

(** [c.isspace()] *)
Definition isspace (c : ascii) : bool :=
  let n := nat_of_ascii c in
  ((9 <=? n) && (n <=? 13) || (28 <=? n) && (n <=? 32) || (n =? 133) || (n =? 160))%nat.

(** [s.lstrip()], [s.rstrip()] and [s.strip()] *)
Fixpoint lstrip (s : string) : string :=
  match s with
  | EmptyString => ""
  | String c s' => if isspace c then lstrip s' else s
  end.

Fixpoint rstrip (s : string) : string :=
  match s with
  | EmptyString => ""
  | String c s' =>
      match rstrip s' with
      | EmptyString => if isspace c then "" else String c ""
      | r => String c r
      end
  end.

Definition strip (s : string) : string := rstrip (lstrip s).

(** [s * n] *)
Definition str_repeat (s : string) (n : Z) : string :=
  Nat.iter (Z.to_nat n) (String.append s) "".

(** The double quote character. *)
Definition quote : string := String (ascii_of_nat 34) "".

(** What [print_xml_structure] writes for an element, as the list of the
    texts that its [print] calls complete, each followed by a newline on
    the output: the opening tag with the attributes, the stripped text
    when it is not blank (one entry, also when the text spans several
    lines), the entries of the children one level deeper, and the closing
    tag. *)
Fixpoint print_xml_element (xml_element : Element) (indent : Z) : list string :=
  match xml_element with
  | mkElement tag attrib text children =>
      [str_repeat "  " indent +:+ "<" +:+ tag
       +:+ String.concat "" (map (λ kv, " " +:+ fst kv +:+ "=" +:+ quote +:+ snd kv +:+ quote)
                                 attrib)
       +:+ ">"]
      ++ (if truthy_str text && truthy_str (Some (strip (py_str text)))
          then [str_repeat "  " (indent + 1) +:+ strip (py_str text)]
          else [])
      ++ (fix print_children (l : list Element) : list string :=
            match l with
            | [] => []
            | child :: l' => print_xml_element child (indent + 1) ++ print_children l'
            end) children
      ++ [str_repeat "  " indent +:+ "</" +:+ tag +:+ ">"]
  end.

Definition print_xml_structure (xml_element : option Element) (indent : Z) : list string :=
  match xml_element with
  | None => ["None"]
  | Some elem => print_xml_element elem indent
  end.

(** An element has visible text when its text has a character that is
    not white space. *)
Definition has_visible_text (e : Element) : bool :=
  match text e with
  | Some s => negb (forallb isspace (list_ascii_of_string s))
  | None => false
  end.

(** ** Fetching and extracting *)

(** What a caller does with a request method and the matching extractor:
    hand the returned value, tree or [None], to the extractor. *)
Definition fetch_and_extract (self : EventorAPI) (request : Client (option Element))
    (x : extractor) : Client DataFrame :=
  client_bind request (λ data, lift (extract x self data)).
(** * Properties *)

(** ** The ElementPath model on small trees *)

Example findall_descendants_in_document_order :
  findall (node "R" [node "A" [leaf "X" "1"]; leaf "X" "2"; node "X" [leaf "X" "3"]])
          [Self; Descendant "X"]
  = [leaf "X" "1"; leaf "X" "2"; node "X" [leaf "X" "3"]; leaf "X" "3"].
Proof. reflexivity. Qed.

Example find_skips_the_element_itself :
  find (node "X" [leaf "Y" "1"]) [Self; Descendant "X"] = None.
Proof. reflexivity. Qed.

Example findtext_of_empty_element :
  findtext (node "R" [node "Name" []]) [Child "Name"] = Some ""
  ∧ findtext (node "R" []) [Child "Name"] = None.
Proof. split; reflexivity. Qed.

Example find_with_attribute_predicate :
  find (node "O" [node "Country" [mkElement "Name" [("languageId", "sv")] (Some "Sverige") [];
                                  mkElement "Name" [("languageId", "en")] (Some "Sweden") []]])
       [Self; Descendant "Country"; Child "Name"; AttrEq "languageId" "en"]
  = Some (mkElement "Name" [("languageId", "en")] (Some "Sweden") []).
Proof. reflexivity. Qed.

(** ** Guarded lookups never raise *)

Lemma bind_Ok {A B : Type} (a : A) (f : A → result B) : (Ok a ≫= f) = f a.
Proof. reflexivity. Qed.

Lemma guarded_text (e : Element) (p : path) :
  (py_text (find e p) if_not_None (find e p)) = Ok (lookup_value e (NodeText p)).
Proof. unfold NodeText; simpl. destruct (find e p); reflexivity. Qed.

Lemma guarded_get (e : Element) (p : path) (a : string) :
  (py_get (find e p) a if_not_None (find e p)) = Ok (lookup_value e (NodeAttr p a)).
Proof. unfold NodeAttr; simpl. destruct (find e p); reflexivity. Qed.

Lemma dict_literal_Ok (k : string) (v : value) (entries : list (string * result value)) :
  dict_literal ((k, Ok v) :: entries) = (d ← dict_literal entries; Ok ((k, v) :: d)).
Proof. reflexivity. Qed.

(** ** The shared loop *)

Lemma for_in_collect (build : Element → result dict) (f : Element → dict) (nodes : list Element) :
  (∀ e, e ∈ nodes → build e = Ok (f e)) →
  ∀ acc, for_in nodes acc (λ acc elem, d ← build elem; Ok (acc ++ [d])) = Ok (acc ++ map f nodes).
Proof.
  induction nodes as [|e nodes IH]; intros Hb acc; simpl.
  - by rewrite app_nil_r.
  - rewrite (Hb e) by apply list_elem_of_here. simpl.
    rewrite IH.
    + by rewrite <- app_assoc.
    + intros e' He'. apply Hb. by apply list_elem_of_further.
Qed.

Lemma collect_Ok (build : Element → result dict) (f : Element → dict) (nodes : list Element) :
  (∀ e, e ∈ nodes → build e = Ok (f e)) → collect nodes build = Ok (map f nodes).
Proof. intros Hb. unfold collect. by rewrite (for_in_collect build f). Qed.

Lemma for_in_raise (build : Element → result dict) (nodes : list Element) (e : Element) (x : exn) :
  e ∈ nodes → build e = Raise x →
  ∀ acc, ∃ x', for_in nodes acc (λ acc elem, d ← build elem; Ok (acc ++ [d])) = Raise x'.
Proof.
  induction nodes as [|n nodes IH]; intros He Hx acc.
  - by apply elem_of_nil in He.
  - simpl. destruct (build n) as [d|x0] eqn:Hn; simpl.
    + apply IH; [|done].
      apply elem_of_cons in He as [->|He]; [congruence|done].
    + by exists x0.
Qed.

(** ** Each dict display refines its field-spec table *)

Ltac refine_display :=
  intros; rewrite ?guarded_text, ?guarded_get; reflexivity.

Lemma org_dict_spec (org : Element) :
  org_dict org = Ok (record_of_spec organization_fields org).
Proof. unfold org_dict. refine_display. Qed.

Lemma event_class_dict_spec (event_class : Element) :
  event_class_dict event_class = Ok (record_of_spec event_class_fields event_class).
Proof. unfold event_class_dict. refine_display. Qed.

Lemma entry_fee_dict_spec (entry_fee : Element) :
  entry_fee_dict entry_fee = Ok (record_of_spec entry_fee_fields entry_fee).
Proof. unfold entry_fee_dict. refine_display. Qed.

Lemma entry_dict_spec (entry : Element) :
  entry_dict entry = Ok (record_of_spec entry_fields entry).
Proof. unfold entry_dict. refine_display. Qed.

Lemma competitor_count_dict_spec (competitor_count : Element) :
  competitor_count_dict competitor_count
  = Ok (record_of_spec competitor_count_fields competitor_count).
Proof. reflexivity. Qed.

Lemma membership_dict_spec (organisation membership : Element) :
  membership_dict (findtext organisation [Child "Id"]) (findtext organisation [Child "Name"])
                  (findtext organisation [Child "ShortName"]) membership
  = Ok (record_of_spec organisation_identity_fields organisation
        ++ record_of_spec membership_fields membership).
Proof. unfold membership_dict. refine_display. Qed.

(** ** Paths *)

Lemma iterfind_app (e : Element) (p q : path) :
  iterfind e (p ++ q) = fold_left (λ found s, select s found) q (iterfind e p).
Proof. unfold iterfind. by rewrite fold_left_app. Qed.

Lemma select_nil (s : step) : select s [] = [].
Proof. by destruct s. Qed.

Lemma selectors_nil (q : path) : fold_left (λ found s, select s found) q [] = [].
Proof. induction q as [|s q IH]; simpl; [done|]. by rewrite select_nil. Qed.

(** When a path matches nothing, no extension of it matches anything. *)
Lemma find_None_app (e : Element) (p q : path) :
  find e p = None → find e (p ++ q) = None.
Proof.
  unfold find. rewrite iterfind_app.
  destruct (iterfind e p); [|done].
  intros _. by rewrite selectors_nil.
Qed.

(** ** The events record *)

Lemma check_str_items_Ok (items : list (option string)) :
  forallb is_not_None items = true →
  ∀ i, check_str_items i items
       = Ok (map (λ o, match o with Some s => s | None => "" end) items).
Proof.
  induction items as [|[s|] items IH]; simpl; intros H i; try done.
  by rewrite IH.
Qed.

Lemma check_str_items_Raise (items : list (option string)) :
  forallb is_not_None items = false →
  ∀ i, ∃ msg, check_str_items i items = Raise (TypeError msg).
Proof.
  induction items as [|[s|] items IH]; simpl; intros H i; try done.
  - destruct (IH H (S i)) as [msg ->]. by exists msg.
  - by eexists.
Qed.

Lemma forallb_map {A B : Type} (f : A → B) (P : B → bool) (l : list A) :
  forallb P (map f l) = forallb (λ a, P (f a)) l.
Proof. induction l as [|a l IH]; simpl; [done|]. by rewrite IH. Qed.

Lemma py_join_texts (sep : string) (nodes : list Element) :
  forallb (λ d, is_not_None (text d)) nodes = true →
  py_join sep (map text nodes)
  = Ok (str_join sep (map (λ n, match text n with Some s => s | None => "" end) nodes)).
Proof.
  intros H. unfold py_join.
  rewrite check_str_items_Ok by by rewrite forallb_map.
  simpl. by rewrite map_map.
Qed.

Lemma organiser_guard (event : Element) :
  organiser_has_id event = true →
  (py_text (find event [Self; Descendant "Organiser"; Child "OrganisationId"])
   if_not_None (find event [Self; Descendant "Organiser"]))
  = Ok (lookup_value event (NodeText [Self; Descendant "Organiser"; Child "OrganisationId"])).
Proof.
  unfold organiser_has_id, NodeText. simpl lookup_value.
  pose proof (find_None_app event [Self; Descendant "Organiser"] [Child "OrganisationId"]) as Hext.
  simpl app in Hext.
  destruct (find event [Self; Descendant "Organiser"]) as [o|]; simpl.
  - destruct (find event [Self; Descendant "Organiser"; Child "OrganisationId"]); [done|].
    discriminate.
  - intros _. by rewrite Hext.
Qed.

Lemma event_dict_display_spec (event : Element) :
  organiser_has_id event = true →
  discipline_ids_have_text event = true →
  event_dict_display event = Ok (record_of_spec event_base_fields event).
Proof.
  intros Horg Hdisc. unfold event_dict_display.
  rewrite organiser_guard by done.
  rewrite guarded_get.
  rewrite py_join_texts by done.
  reflexivity.
Qed.

Lemma event_dict_spec (event : Element) :
  organiser_has_id event = true →
  discipline_ids_have_text event = true →
  event_dict event
  = Ok (record_of_spec (event_fields (is_not_None (find event [Self; Descendant "EventRace"])))
                       event).
Proof.
  intros Horg Hdisc. unfold event_dict.
  rewrite event_dict_display_spec by done.
  rewrite bind_Ok.
  unfold event_fields, record_of_spec.
  destruct (find event [Self; Descendant "EventRace"]) as [event_race|] eqn:Hrace;
    cbn [is_not_None map app lookup_value fst snd event_base_fields
         event_race_distance_field event_race_fields NodeAttr NodeText];
    rewrite ?Hrace; [|reflexivity].
  destruct (find event_race [Child "RaceDate"]) as [race_date|];
    destruct (find event_race [Self; Descendant "EventCenterPosition"]) as [event_center|];
    reflexivity.
Qed.

Lemma dict_literal_raises (entries : list (string * result value)) (k : string) (x : exn) :
  (k, Raise x) ∈ entries → ∃ x', dict_literal entries = Raise x'.
Proof.
  induction entries as [|[k0 [v|x0]] entries IH]; intros Hin.
  - by apply elem_of_nil in Hin.
  - apply elem_of_cons in Hin as [Heq|Hin]; [done|].
    destruct (IH Hin) as [x' Hx']. exists x'. simpl. by rewrite Hx'.
  - by exists x0.
Qed.

Lemma event_dict_display_raises (event : Element) :
  organiser_has_id event && discipline_ids_have_text event = false →
  ∃ x, event_dict_display event = Raise x.
Proof.
  intros Hbad. unfold event_dict_display.
  destruct (organiser_has_id event) eqn:Horg.
  - simpl in Hbad.
    destruct (check_str_items_Raise (map text (findall event [Self; Descendant "DisciplineId"])))
      with (i := 0%nat) as [msg Hmsg].
    { rewrite forallb_map. exact Hbad. }
    unfold py_join. rewrite Hmsg.
    eapply dict_literal_raises.
    do 11 apply list_elem_of_further. apply list_elem_of_here.
  - clear Hbad. unfold organiser_has_id in Horg.
    destruct (find event [Self; Descendant "Organiser"]); [|done].
    destruct (find event [Self; Descendant "Organiser"; Child "OrganisationId"]); [done|].
    eapply dict_literal_raises.
    do 8 apply list_elem_of_further. apply list_elem_of_here.
Qed.

Lemma event_dict_raises (event : Element) :
  organiser_has_id event && discipline_ids_have_text event = false →
  ∃ x, event_dict event = Raise x.
Proof.
  intros Hbad. destruct (event_dict_display_raises event Hbad) as [x Hx].
  exists x. unfold event_dict. by rewrite Hx.
Qed.

(** ** The extractors on a parsed tree *)

Lemma organizations_to_dataframe_spec (self : EventorAPI) (t : Element) :
  organizations_to_dataframe self (Some t)
  = Ok (DataFrame_of_dicts
          (map (record_of_spec organization_fields) (findall t [Self; Descendant "Organisation"]))).
Proof.
  unfold organizations_to_dataframe. simpl py_findall. rewrite bind_Ok.
  rewrite (collect_Ok _ (record_of_spec organization_fields)); [done|].
  intros e _. apply org_dict_spec.
Qed.

Lemma event_classes_to_dataframe_spec (self : EventorAPI) (t : Element) :
  event_classes_to_dataframe self (Some t)
  = Ok (DataFrame_of_dicts
          (map (record_of_spec event_class_fields) (findall t [Self; Descendant "EventClass"]))).
Proof.
  unfold event_classes_to_dataframe. simpl py_findall. rewrite bind_Ok.
  rewrite (collect_Ok _ (record_of_spec event_class_fields)); [done|].
  intros e _. apply event_class_dict_spec.
Qed.

Lemma entryfees_to_dataframe_spec (self : EventorAPI) (t : Element) :
  entryfees_to_dataframe self (Some t)
  = Ok (DataFrame_of_dicts
          (map (record_of_spec entry_fee_fields) (findall t [Self; Descendant "EntryFee"]))).
Proof.
  unfold entryfees_to_dataframe. simpl py_findall. rewrite bind_Ok.
  rewrite (collect_Ok _ (record_of_spec entry_fee_fields)); [done|].
  intros e _. apply entry_fee_dict_spec.
Qed.

Lemma entries_to_dataframe_spec (self : EventorAPI) (t : Element) :
  entries_to_dataframe self (Some t)
  = Ok (DataFrame_of_dicts
          (map (record_of_spec entry_fields) (findall t [Self; Descendant "Entry"]))).
Proof.
  unfold entries_to_dataframe. simpl py_findall. rewrite bind_Ok.
  rewrite (collect_Ok _ (record_of_spec entry_fields)); [done|].
  intros e _. apply entry_dict_spec.
Qed.

Lemma competitor_count_to_dataframe_spec (self : EventorAPI) (t : Element) :
  competitor_count_to_dataframe self (Some t)
  = Ok (DataFrame_of_dicts
          (map (record_of_spec competitor_count_fields)
               (findall t [Self; Descendant "CompetitorCount"]))).
Proof.
  unfold competitor_count_to_dataframe. simpl py_findall. rewrite bind_Ok.
  rewrite (collect_Ok _ (record_of_spec competitor_count_fields)); [done|].
  intros e _. apply competitor_count_dict_spec.
Qed.

Lemma memberships_to_dataframe_spec (self : EventorAPI) (t organisation : Element) :
  find t [Self; Descendant "Organisation"] = Some organisation →
  memberships_to_dataframe self (Some t)
  = Ok (DataFrame_of_dicts
          (map (λ membership,
                  record_of_spec organisation_identity_fields organisation
                  ++ record_of_spec membership_fields membership)
               (findall t [Self; Descendant "Membership"]))).
Proof.
  intros Horg. unfold memberships_to_dataframe. simpl py_find. rewrite bind_Ok, Horg.
  simpl py_findtext. rewrite !bind_Ok. simpl py_findall. rewrite bind_Ok.
  erewrite collect_Ok; [done|].
  intros e _. apply membership_dict_spec.
Qed.

Lemma memberships_to_dataframe_no_organisation (self : EventorAPI) (t : Element) :
  find t [Self; Descendant "Organisation"] = None →
  memberships_to_dataframe self (Some t) = Raise (NoneType_has_no "findtext").
Proof.
  intros Horg. unfold memberships_to_dataframe. simpl py_find. by rewrite bind_Ok, Horg.
Qed.

Lemma events_to_dataframe_spec (self : EventorAPI) (t : Element) :
  (∀ event, event ∈ findall t [Self; Descendant "Event"] →
            organiser_has_id event = true ∧ discipline_ids_have_text event = true) →
  events_to_dataframe self (Some t)
  = Ok (DataFrame_of_dicts
          (map (λ event,
                  record_of_spec
                    (event_fields (is_not_None (find event [Self; Descendant "EventRace"]))) event)
               (findall t [Self; Descendant "Event"]))).
Proof.
  intros Hok. unfold events_to_dataframe. simpl py_findall. rewrite bind_Ok.
  erewrite collect_Ok; [done|].
  intros e He. destruct (Hok e He). by apply event_dict_spec.
Qed.

Lemma events_to_dataframe_raises (self : EventorAPI) (t event : Element) :
  event ∈ findall t [Self; Descendant "Event"] →
  organiser_has_id event && discipline_ids_have_text event = false →
  ∃ x, events_to_dataframe self (Some t) = Raise x.
Proof.
  intros He Hbad. unfold events_to_dataframe. simpl py_findall. rewrite bind_Ok.
  destruct (event_dict_raises event Hbad) as [x Hx].
  destruct (for_in_raise event_dict _ event x He Hx []) as [x' Hx'].
  exists x'. unfold collect. by rewrite Hx'.
Qed.

(** ** Null fields *)


(** ** Tables of records that share their keys *)

Lemma existsb_eqb_elem_of (k : string) (cols : list string) :
  existsb (String.eqb k) cols = true ↔ k ∈ cols.
Proof.
  rewrite existsb_exists. split.
  - intros (c & Hc & Heq). apply String.eqb_eq in Heq as ->. by apply list_elem_of_In.
  - intros Hk. exists k. split; [by apply list_elem_of_In|apply String.eqb_refl].
Qed.

Lemma add_column_known (cols : list string) (k : string) :
  k ∈ cols → add_column cols k = cols.
Proof.
  intros Hk. unfold add_column.
  by apply existsb_eqb_elem_of in Hk as ->.
Qed.

Lemma add_column_new (cols : list string) (k : string) :
  k ∉ cols → add_column cols k = cols ++ [k].
Proof.
  intros Hk. unfold add_column.
  destruct (existsb (String.eqb k) cols) eqn:E; [|done].
  by apply existsb_eqb_elem_of in E.
Qed.

Lemma add_columns_known (ks cols : list string) :
  (∀ k, k ∈ ks → k ∈ cols) → fold_left add_column ks cols = cols.
Proof.
  induction ks as [|k ks IH]; intros Hks; simpl; [done|].
  rewrite add_column_known by (apply Hks, list_elem_of_here).
  apply IH. intros k' Hk'. by apply Hks, list_elem_of_further.
Qed.

Lemma add_columns_new (ks cols : list string) :
  NoDup (cols ++ ks) → fold_left add_column ks cols = cols ++ ks.
Proof.
  revert cols. induction ks as [|k ks IH]; intros cols Hnd; simpl.
  - by rewrite app_nil_r.
  - assert (k ∉ cols) as Hk.
    { apply NoDup_app in Hnd as (_ & Hdisj & _).
      intros Hin. apply (Hdisj k Hin), list_elem_of_here. }
    rewrite add_column_new by done.
    rewrite IH; rewrite <- app_assoc; done.
Qed.

Lemma union_keys_uniform (ks : list string) (records : list dict) :
  NoDup ks → records ≠ [] → Forall (λ d, map fst d = ks) records →
  union_keys records = ks.
Proof.
  intros Hnd Hne Hall. unfold union_keys.
  destruct records as [|d records]; [done|].
  apply Forall_cons in Hall as [Hd Hall]. simpl. rewrite Hd.
  rewrite (add_columns_new ks []) by done. simpl.
  clear Hd Hne d.
  induction Hall as [|d records Hd _ IH]; simpl; [done|].
  rewrite Hd, add_columns_known by done. exact IH.
Qed.

Lemma dict_get_skip (k c : string) (v : value) (d : dict) :
  c ≠ k → dict_get c ((k, v) :: d) = dict_get c d.
Proof.
  intros Hne. simpl.
  destruct (String.eqb k c) eqn:E; [|done].
  apply String.eqb_eq in E. congruence.
Qed.

(** A table built from records that all have the keys [ks], in this
    order, has the columns [ks]. *)
Lemma DataFrame_of_dicts_uniform (ks : list string) (records : list dict) :
  NoDup ks → records ≠ [] → Forall (λ d, map fst d = ks) records →
  columns (DataFrame_of_dicts records) = ks.
Proof.
  intros Hnd Hne Hall. unfold DataFrame_of_dicts. cbn [columns].
  by apply union_keys_uniform.
Qed.

(** Every table has one row per record and one cell per column. *)
Lemma DataFrame_of_dicts_shape (records : list dict) :
  length (data (DataFrame_of_dicts records)) = length records
  ∧ Forall (λ row, length row = length (columns (DataFrame_of_dicts records)))
           (data (DataFrame_of_dicts records)).
Proof.
  unfold DataFrame_of_dicts. cbn [columns data]. split; [by rewrite length_map|].
  apply List.Forall_forall. intros row Hrow.
  apply in_map_iff in Hrow as (d & <- & _). unfold row_of_dict. by rewrite length_map.
Qed.

Lemma record_of_spec_keys (spec : field_spec) (e : Element) :
  map fst (record_of_spec spec e) = map fst spec.
Proof. unfold record_of_spec. rewrite map_map. done. Qed.

(** ** Reading a table cell *)

Lemma add_column_elem (cols : list string) (k c : string) :
  c ∈ add_column cols k ↔ c ∈ cols ∨ c = k.
Proof.
  unfold add_column. destruct (existsb (String.eqb k) cols) eqn:E.
  - apply existsb_eqb_elem_of in E. split; [by left|]. by intros [H| ->].
  - rewrite elem_of_app, list_elem_of_singleton. done.
Qed.

Lemma add_columns_elem (ks cols : list string) (c : string) :
  c ∈ fold_left add_column ks cols ↔ c ∈ cols ∨ c ∈ ks.
Proof.
  revert cols. induction ks as [|k ks IH]; intros cols; simpl.
  - rewrite elem_of_nil. tauto.
  - rewrite IH, add_column_elem, elem_of_cons. tauto.
Qed.

Lemma union_keys_from_elem (records : list dict) (cols : list string) (c : string) :
  c ∈ fold_left (λ cols d, fold_left add_column (map fst d) cols) records cols
  ↔ c ∈ cols ∨ ∃ d, d ∈ records ∧ c ∈ map fst d.
Proof.
  revert cols. induction records as [|d records IH]; intros cols; simpl.
  - split; [by left|]. intros [H|(d & Hd & _)]; [done|]. by apply elem_of_nil in Hd.
  - rewrite IH, add_columns_elem. split.
    + intros [[H|H]|(d' & Hd' & H)].
      * by left.
      * right. exists d. split; [apply list_elem_of_here|done].
      * right. exists d'. split; [by apply list_elem_of_further|done].
    + intros [H|(d' & Hd' & H)]; [by left; left|].
      apply elem_of_cons in Hd' as [->|Hd'].
      * left. by right.
      * right. by exists d'.
Qed.

(** A column of the table is a key of some record, and conversely. *)
Lemma union_keys_elem (records : list dict) (c : string) :
  c ∈ union_keys records ↔ ∃ d, d ∈ records ∧ c ∈ map fst d.
Proof.
  unfold union_keys. rewrite union_keys_from_elem, elem_of_nil. split.
  - by intros [[]|H].
  - by right.
Qed.

Lemma index_of_elem (c : string) (cols : list string) :
  c ∈ cols → ∃ j, index_of c cols = Some j ∧ cols !! j = Some c.
Proof.
  induction cols as [|c0 cols IH]; intros Hc.
  - by apply elem_of_nil in Hc.
  - simpl. destruct (String.eqb c0 c) eqn:E.
    + apply String.eqb_eq in E as ->. by exists 0%nat.
    + apply elem_of_cons in Hc as [->|Hc].
      * by rewrite String.eqb_refl in E.
      * destruct (IH Hc) as (j & -> & Hj). by exists (S j).
Qed.

Lemma dict_get_key {V : Type} (c : string) (d : list (string * V)) (v : V) :
  dict_get c d = Some v → c ∈ map fst d.
Proof.
  induction d as [|[k x] d IH]; simpl; [done|].
  destruct (String.eqb k c) eqn:E.
  - apply String.eqb_eq in E as ->. intros _. apply list_elem_of_here.
  - intros H. apply list_elem_of_further. by apply IH.
Qed.

Lemma lookup_map {A B : Type} (f : A → B) (l : list A) (i : nat) :
  map f l !! i = f <$> l !! i.
Proof. revert i. induction l as [|a l IH]; intros [|i]; simpl; auto. Qed.

(** Row [i] of the table of [records] holds, in a column [c] of the
    table, the cell that pandas stores for the entry of record [i]. *)
Lemma cell_at_DataFrame_of_dicts (records : list dict) (i : nat) (d : dict) (c : string) :
  records !! i = Some d → c ∈ union_keys records →
  cell_at (DataFrame_of_dicts records) i c
  = Some (cell_in_column (column_is_None records c) (dict_get c d)).
Proof.
  intros Hd Hc. destruct (index_of_elem c _ Hc) as (j & Hidx & Hj).
  unfold cell_at, DataFrame_of_dicts. cbn [columns data]. rewrite Hidx.
  cbn [mbind option_bind]. rewrite lookup_map, Hd. cbn [fmap option_fmap option_map].
  cbn [mbind option_bind]. unfold row_of_dict. by rewrite lookup_map, Hj.
Qed.

Lemma union_keys_of_record (records : list dict) (i : nat) (d : dict) (c : string)
    (v : value) :
  records !! i = Some d → dict_get c d = Some v → c ∈ union_keys records.
Proof.
  intros Hd Hv. apply union_keys_elem. exists d.
  split; [by eapply list_elem_of_lookup_2|by eapply dict_get_key].
Qed.

(** A string of a record is the cell of its row. *)
Lemma cell_at_Str (records : list dict) (i : nat) (d : dict) (c s : string) :
  records !! i = Some d → dict_get c d = Some (Some s) →
  cell_at (DataFrame_of_dicts records) i c = Some (Str s).
Proof.
  intros Hd Hs. rewrite (cell_at_DataFrame_of_dicts records i d c Hd), Hs; [done|].
  by eapply union_keys_of_record.
Qed.

(** A [None] of a record is [None] in a column that is [None]
    throughout, and [NaN] in any other column. *)
Lemma cell_at_None (records : list dict) (i : nat) (d : dict) (c : string) :
  records !! i = Some d → dict_get c d = Some None →
  cell_at (DataFrame_of_dicts records) i c
  = Some (if column_is_None records c then Null else NaN).
Proof.
  intros Hd Hn. rewrite (cell_at_DataFrame_of_dicts records i d c Hd), Hn; [done|].
  by eapply union_keys_of_record.
Qed.

(** A column in which every record has the same value holds that value
    in every row. *)
Lemma cell_at_uniform (records : list dict) (i : nat) (d : dict) (c : string) (v : value) :
  records !! i = Some d → (∀ d', d' ∈ records → dict_get c d' = Some v) →
  cell_at (DataFrame_of_dicts records) i c = Some (cell_of_value v).
Proof.
  intros Hd Hall.
  assert (dict_get c d = Some v) as Hv by by eapply Hall, list_elem_of_lookup_2.
  destruct v as [s|]; [by eapply cell_at_Str|].
  rewrite (cell_at_None records i d c Hd Hv).
  assert (column_is_None records c = true) as ->; [|done].
  apply forallb_forall. intros d' Hd'. cbv beta.
  assert (dict_get c d' = Some None) as Hn by (apply Hall; by apply list_elem_of_In).
  unfold value in Hn. by rewrite Hn.
Qed.


(** ** The request method *)

Lemma append_nonempty (s t : string) :
  String.eqb t "" = false → String.eqb (s +:+ t) "" = false.
Proof. by destruct s. Qed.

Lemma http_error_msg_status (response : Response) :
  String.eqb (http_error_msg response) ""
  = negb ((400 <=? status_code response) && (status_code response <? 600)).
Proof.
  unfold http_error_msg.
  destruct (400 <=? status_code response) eqn:H4; simpl.
  - destruct (status_code response <? 500) eqn:H5.
    + replace (status_code response <? 600) with true by lia.
      simpl. by apply append_nonempty.
    + destruct (500 <=? status_code response) eqn:H5'; [|lia]. simpl.
      destruct (status_code response <? 600); simpl; [|done].
      by apply append_nonempty.
  - replace (500 <=? status_code response) with false by lia. done.
Qed.

Section ServiceProperties.

Variable server : list Request → Request → string + Response.
Variable fromstring : string → string + Element.

(** What one call of [_make_request] does, by the answer of the service. *)
Lemma _make_request_run (self : EventorAPI) (endpoint : string)
    (params : option (gmap string pyval)) (w : World) :
  _make_request server fromstring self endpoint params w
  = let request := mkRequest (BASE_URL +:+ "/" +:+ endpoint) (headers self) params in
    let issued := sent w ++ [request] in
    match server (sent w) request with
    | inl msg =>
        (Raise (RequestException msg),
         mkWorld issued (log w ++ ["API request failed: " +:+ msg]))
    | inr response =>
        if (400 <=? status_code response) && (status_code response <? 600) then
          (Raise (RequestException (http_error_msg response)),
           mkWorld issued (log w ++ ["API request failed: " +:+ http_error_msg response]))
        else
          match fromstring (response_text response) with
          | inl msg =>
              (Ok None,
               mkWorld issued (log w ++ ["XMLParseError: " +:+ msg +:+ ". Response text: "
                                         +:+ response_text response]))
          | inr root => (Ok (Some root), mkWorld issued (log w))
          end
    end.
Proof.
  unfold _make_request, try_except, client_bind, requests_get. cbv zeta.
  destruct (server (sent w) _) as [msg|response]; [reflexivity|].
  unfold raise_for_status. rewrite http_error_msg_status.
  destruct ((400 <=? status_code response) && (status_code response <? 600)); simpl.
  - reflexivity.
  - unfold ET_fromstring, client_ret, client_raise.
    destruct (fromstring (response_text response)); reflexivity.
Qed.

(** Every call issues exactly one GET, whatever the answer. *)
Lemma _make_request_sent (self : EventorAPI) (endpoint : string)
    (params : option (gmap string pyval)) (w : World) :
  sent (snd (_make_request server fromstring self endpoint params w))
  = sent w ++ [mkRequest (BASE_URL +:+ "/" +:+ endpoint) (headers self) params].
Proof.
  rewrite _make_request_run. cbv zeta.
  destruct (server (sent w) _) as [msg|response]; [reflexivity|].
  destruct ((400 <=? status_code response) && (status_code response <? 600)); [reflexivity|].
  destruct (fromstring (response_text response)); reflexivity.
Qed.

Lemma query_of_make_request (self : EventorAPI) (endpoint : string)
    (mapping : gmap string pyval) (w : World) (key : string) :
  query_of (_make_request server fromstring self endpoint (Some mapping)) w key = mapping !! key.
Proof.
  unfold query_of. rewrite _make_request_sent, last_snoc. reflexivity.
Qed.

End ServiceProperties.

(** ** Query parameters *)

Lemma lookup_if_insert_ne (c : bool) (k k' : string) (v : pyval) (m : gmap string pyval) :
  k ≠ k' → (if c then <[k:=v]> m else m) !! k' = m !! k'.
Proof. intros Hne. destruct c; [|done]. by rewrite lookup_insert_ne. Qed.

Lemma truthy_str_nonempty (s : string) : s ≠ "" → truthy_str (Some s) = true.
Proof.
  intros Hne. unfold truthy_str.
  destruct (String.eqb s "") eqn:E; [|done].
  by apply String.eqb_eq in E.
Qed.

Lemma truthy_list_nonempty {A : Type} (l : list A) : l ≠ [] → truthy_list (Some l) = true.
Proof. by destruct l. Qed.

Ltac lookup_param :=
  repeat first
    [ rewrite lookup_insert_eq
    | rewrite lookup_insert_ne by done
    | rewrite lookup_if_insert_ne by done ];
  try done.

(** ** Joining and splitting *)

Lemma str_split_no_separator (c : ascii) (s : string) :
  contains c s = false → str_split c s = [s].
Proof.
  induction s as [|a s IH]; simpl; [done|].
  intros H. apply orb_false_iff in H as [-> H]. by rewrite IH.
Qed.

Lemma str_split_piece (c : ascii) (x rest : string) :
  contains c x = false →
  str_split c (x +:+ String c rest) = x :: str_split c rest.
Proof.
  induction x as [|a x IH]; simpl.
  - intros _. by rewrite Ascii.eqb_refl.
  - intros H. apply orb_false_iff in H as [-> H]. by rewrite IH.
Qed.

(** Splitting the joined string at the separator gives back the items, in
    the same order, when no item contains the separator. *)
Lemma str_split_join (c : ascii) (items : list string) :
  items ≠ [] →
  Forall (λ x, contains c x = false) items →
  str_split c (str_join (String c "") items) = items.
Proof.
  intros Hne Hall. induction Hall as [|x items Hx Hall IH]; [done|].
  destruct items as [|y items].
  - simpl. by apply str_split_no_separator.
  - change (str_join (String c "") (x :: y :: items))
      with (x +:+ String c "" +:+ str_join (String c "") (y :: items)).
    change (String c "" +:+ ?s) with (String c s).
    rewrite str_split_piece by done. f_equal. by apply IH.
Qed.

Lemma string_of_uint_no_comma (d : Decimal.uint) :
  contains "," (NilEmpty.string_of_uint d) = false.
Proof. induction d; simpl; done. Qed.

Lemma str_of_int_no_comma (n : Z) : contains "," (str_of_int n) = false.
Proof.
  unfold str_of_int, NilZero.string_of_int, NilZero.string_of_uint.
  destruct (Z.to_int n) as [d|d]; destruct d; simpl;
    try reflexivity; apply string_of_uint_no_comma.
Qed.

Lemma split_joined_ids (ids : list Z) :
  ids ≠ [] → str_split "," (str_join "," (map str_of_int ids)) = map str_of_int ids.
Proof.
  intros Hne. apply str_split_join.
  - by destruct ids.
  - apply Forall_forall. intros x Hx.
    apply list_elem_of_fmap in Hx as (n & -> & _).
    apply str_of_int_no_comma.
Qed.

Example join_then_split :
  str_join "," (map str_of_int [3; 1; 2]) = "3,1,2"
  ∧ str_split "," "3,1,2" = ["3"; "1"; "2"].
Proof. split; reflexivity. Qed.

(** ** The "no data" sentinel *)

(** C1.  Given the "no data" sentinel [None], the events extractor
    returns the empty table; each of the other six extractors calls a
    method on [None] and raises [AttributeError] instead of returning an
    empty table. *)
Theorem extract_sentinel (self : EventorAPI) (x : extractor) :
  extract x self None
  = match x with
    | Events => Ok DataFrame_empty
    | Memberships => Raise (AttributeError "'NoneType' object has no attribute 'find'")
    | _ => Raise (AttributeError "'NoneType' object has no attribute 'findall'")
    end.
Proof. destruct x; reflexivity. Qed.

(** ** Request builders *)

Section Builders.

Variable server : list Request → Request → string + Response.
Variable fromstring : string → string + Element.
Variable self : EventorAPI.
Variable w : World.

Variables organisation_ids event_ids event_class_ids person_ids classification_ids
  : option (list Z).
Variables from_date to_date from_event_date to_event_date from_entry_date to_entry_date
  from_modify_date to_modify_date : option string.
Variables include_entry_fees include_person_element include_organisation_element
  include_event_element include_child_organisations include_contact_details : bool.
Variables event_id organisation_id year : Z.

Ltac sent_params :=
  unfold get_events, get_entries, get_competitor_count, get_event_classes, get_memberships;
  rewrite query_of_make_request; cbv zeta.

(** C5.  A non-empty date string [D] given as a "from" bound is sent as
    [D 00:00:00], and given as a "to" bound as [D 23:59:59], by
    [get_events] and by each of the three date ranges of [get_entries]. *)
Theorem date_bounds_serialized (D : string) :
  D ≠ "" →
  query_of (get_events server fromstring self (Some D) to_date classification_ids) w "fromDate"
    = Some (VStr (D +:+ " 00:00:00"))
  ∧ query_of (get_events server fromstring self from_date (Some D) classification_ids) w "toDate"
    = Some (VStr (D +:+ " 23:59:59"))
  ∧ query_of (get_entries server fromstring self organisation_ids event_ids event_class_ids
                (Some D) to_event_date from_entry_date to_entry_date
                from_modify_date to_modify_date include_entry_fees include_person_element
                include_organisation_element include_event_element) w "fromEventDate"
    = Some (VStr (D +:+ " 00:00:00"))
  ∧ query_of (get_entries server fromstring self organisation_ids event_ids event_class_ids
                from_event_date (Some D) from_entry_date to_entry_date
                from_modify_date to_modify_date include_entry_fees include_person_element
                include_organisation_element include_event_element) w "toEventDate"
    = Some (VStr (D +:+ " 23:59:59"))
  ∧ query_of (get_entries server fromstring self organisation_ids event_ids event_class_ids
                from_event_date to_event_date (Some D) to_entry_date
                from_modify_date to_modify_date include_entry_fees include_person_element
                include_organisation_element include_event_element) w "fromEntryDate"
    = Some (VStr (D +:+ " 00:00:00"))
  ∧ query_of (get_entries server fromstring self organisation_ids event_ids event_class_ids
                from_event_date to_event_date from_entry_date (Some D)
                from_modify_date to_modify_date include_entry_fees include_person_element
                include_organisation_element include_event_element) w "toEntryDate"
    = Some (VStr (D +:+ " 23:59:59"))
  ∧ query_of (get_entries server fromstring self organisation_ids event_ids event_class_ids
                from_event_date to_event_date from_entry_date to_entry_date
                (Some D) to_modify_date include_entry_fees include_person_element
                include_organisation_element include_event_element) w "fromModifyDate"
    = Some (VStr (D +:+ " 00:00:00"))
  ∧ query_of (get_entries server fromstring self organisation_ids event_ids event_class_ids
                from_event_date to_event_date from_entry_date to_entry_date
                from_modify_date (Some D) include_entry_fees include_person_element
                include_organisation_element include_event_element) w "toModifyDate"
    = Some (VStr (D +:+ " 23:59:59")).
Proof.
  intros HD. pose proof (truthy_str_nonempty D HD) as Htruthy.
  repeat split; sent_params; lookup_param; rewrite Htruthy; by rewrite lookup_insert_eq.
Qed.

(** C8.  Every boolean argument of [get_event_classes], [get_entries] and
    [get_memberships] is placed in the query-parameter mapping as the
    boolean itself, that is as the literal [True] or [False] that was
    supplied. *)
Theorem boolean_parameters_passed_as_literals :
  query_of (get_event_classes server fromstring self event_id include_entry_fees) w
           "includeEntryFees" = Some (VBool include_entry_fees)
  ∧ query_of (get_entries server fromstring self organisation_ids event_ids event_class_ids
                from_event_date to_event_date from_entry_date to_entry_date
                from_modify_date to_modify_date include_entry_fees include_person_element
                include_organisation_element include_event_element) w "includeEntryFees"
    = Some (VBool include_entry_fees)
  ∧ query_of (get_entries server fromstring self organisation_ids event_ids event_class_ids
                from_event_date to_event_date from_entry_date to_entry_date
                from_modify_date to_modify_date include_entry_fees include_person_element
                include_organisation_element include_event_element) w "includePersonElement"
    = Some (VBool include_person_element)
  ∧ query_of (get_entries server fromstring self organisation_ids event_ids event_class_ids
                from_event_date to_event_date from_entry_date to_entry_date
                from_modify_date to_modify_date include_entry_fees include_person_element
                include_organisation_element include_event_element) w "includeOrganisationElement"
    = Some (VBool include_organisation_element)
  ∧ query_of (get_entries server fromstring self organisation_ids event_ids event_class_ids
                from_event_date to_event_date from_entry_date to_entry_date
                from_modify_date to_modify_date include_entry_fees include_person_element
                include_organisation_element include_event_element) w "includeEventElement"
    = Some (VBool include_event_element)
  ∧ query_of (get_memberships server fromstring self organisation_id year
                include_child_organisations include_contact_details) w "includeChildOrganisations"
    = Some (VBool include_child_organisations)
  ∧ query_of (get_memberships server fromstring self organisation_id year
                include_child_organisations include_contact_details) w "includeContactDetails"
    = Some (VBool include_contact_details).
Proof. repeat split; sent_params; lookup_param. Qed.

(** C9.  A non-empty list of IDs given to [get_events], [get_entries] or
    [get_competitor_count] is sent as one string; splitting that string
    at the commas gives back the decimal numerals of the IDs, in the
    input order. *)
Theorem id_lists_comma_joined_in_order (ids : list Z) :
  ids ≠ [] →
  let joined := VStr (str_join "," (map str_of_int ids)) in
  str_split "," (str_join "," (map str_of_int ids)) = map str_of_int ids
  ∧ query_of (get_events server fromstring self from_date to_date (Some ids)) w
             "classificationIds" = Some joined
  ∧ query_of (get_entries server fromstring self (Some ids) event_ids event_class_ids
                from_event_date to_event_date from_entry_date to_entry_date
                from_modify_date to_modify_date include_entry_fees include_person_element
                include_organisation_element include_event_element) w "organisationIds"
    = Some joined
  ∧ query_of (get_entries server fromstring self organisation_ids (Some ids) event_class_ids
                from_event_date to_event_date from_entry_date to_entry_date
                from_modify_date to_modify_date include_entry_fees include_person_element
                include_organisation_element include_event_element) w "eventIds"
    = Some joined
  ∧ query_of (get_entries server fromstring self organisation_ids event_ids (Some ids)
                from_event_date to_event_date from_entry_date to_entry_date
                from_modify_date to_modify_date include_entry_fees include_person_element
                include_organisation_element include_event_element) w "eventClassIds"
    = Some joined
  ∧ query_of (get_competitor_count server fromstring self (Some ids) event_ids person_ids) w
             "organisationIds" = Some joined
  ∧ query_of (get_competitor_count server fromstring self organisation_ids (Some ids) person_ids) w
             "eventIds" = Some joined
  ∧ query_of (get_competitor_count server fromstring self organisation_ids event_ids (Some ids)) w
             "personIds" = Some joined.
Proof.
  intros Hne joined. pose proof (truthy_list_nonempty ids Hne) as Htruthy.
  split; [by apply split_joined_ids|].
  repeat split; sent_params; lookup_param;
    rewrite ?Htruthy; cbn [is_not_None]; by rewrite lookup_insert_eq.
Qed.

End Builders.

(** ** Transport and parse failures *)

Section RequestFailures.

Variable server : list Request → Request → string + Response.
Variable fromstring : string → string + Element.

(** C4, amended.  [_make_request] issues exactly one GET.  A
    [RequestException] raised by the GET, and the [HTTPError] that
    [raise_for_status] raises for a status in 400..599, are logged and
    raised again to the caller.  For any other status the body is parsed;
    a parse failure is logged with the body text and turned into the
    "no data" sentinel [None].  A [ParseError] is never raised. *)
Theorem make_request_failures (self : EventorAPI) (endpoint : string)
    (params : option (gmap string pyval)) (w : World) :
  let request := mkRequest (BASE_URL +:+ "/" +:+ endpoint) (headers self) params in
  let returned := fst (_make_request server fromstring self endpoint params w) in
  let w' := snd (_make_request server fromstring self endpoint params w) in
  sent w' = sent w ++ [request]
  ∧ (∀ msg, returned ≠ Raise (ParseError msg))
  ∧ match server (sent w) request with
    | inl msg =>
        returned = Raise (RequestException msg)
        ∧ log w' = log w ++ ["API request failed: " +:+ msg]
    | inr response =>
        if (400 <=? status_code response) && (status_code response <? 600) then
          returned = Raise (RequestException (http_error_msg response))
          ∧ log w' = log w ++ ["API request failed: " +:+ http_error_msg response]
        else
          match fromstring (response_text response) with
          | inl msg =>
              returned = Ok None
              ∧ log w' = log w ++ ["XMLParseError: " +:+ msg +:+ ". Response text: "
                                   +:+ response_text response]
          | inr root => returned = Ok (Some root) ∧ log w' = log w
          end
    end.
Proof.
  cbv zeta. rewrite _make_request_run. cbv zeta.
  destruct (server (sent w) _) as [msg|response]; [by repeat split|].
  destruct ((400 <=? status_code response) && (status_code response <? 600));
    [by repeat split|].
  destruct (fromstring (response_text response)); by repeat split.
Qed.

End RequestFailures.

(** C4 as stated fails: a response with the non-2xx status 304 is not a
    failure for [raise_for_status]; its empty body does not parse, and the
    caller gets the "no data" sentinel instead of a transport error. *)
Lemma not_modified_not_propagated :
  let server : list Request → Request → string + Response :=
    λ _ request, inr (mkResponse 304 "Not Modified" (url request) "") in
  let fromstring : string → string + Element :=
    λ body, if String.eqb body "" then inl "no element found: line 1, column 0"
            else inr (node "EventList" []) in
  _make_request server fromstring (EventorAPI_init "key") "events" None (mkWorld [] [])
  = (Ok None,
     mkWorld [mkRequest "https://eventor.orienteering.asn.au/api/events" [("ApiKey", "key")] None]
             ["XMLParseError: no element found: line 1, column 0. Response text: "]).
Proof. reflexivity. Qed.

(** ** Memberships *)

Lemma dict_get_app_l {V : Type} (c : string) (d1 d2 : list (string * V)) (v : V) :
  dict_get c d1 = Some v → dict_get c (d1 ++ d2) = Some v.
Proof.
  induction d1 as [|[k x] d1 IH]; simpl; [done|].
  destruct (String.eqb k c); [done|apply IH].
Qed.

(** C6.  On a tree with an [Organisation] node whose [Id] and [Name] are
    [id] and [name], the memberships extractor returns one record per
    [Membership] node, and every record carries [OrganisationId = id] and
    [OrganisationName = name]: the organisation values are read once and
    repeated.  With [Id = 7], [Name = Acme] and two membership nodes these
    are two records carrying ["7"] and ["Acme"]. *)
Theorem memberships_repeat_organisation (self : EventorAPI) (t organisation : Element)
    (id name : string) :
  find t [Self; Descendant "Organisation"] = Some organisation →
  findtext organisation [Child "Id"] = Some id →
  findtext organisation [Child "Name"] = Some name →
  ∃ df, memberships_to_dataframe self (Some t) = Ok df
        ∧ length (data df) = length (findall t [Self; Descendant "Membership"])
        ∧ ∀ i, (i < length (findall t [Self; Descendant "Membership"]))%nat →
               cell_at df i "OrganisationId" = Some (Str id)
               ∧ cell_at df i "OrganisationName" = Some (Str name).
Proof.
  intros Horg Hid Hname.
  eexists. split; [by apply memberships_to_dataframe_spec|]. split.
  - by rewrite (proj1 (DataFrame_of_dicts_shape _)), length_map.
  - intros i Hi. destruct (lookup_lt_is_Some_2 _ i Hi) as [membership Hm].
    split; (eapply cell_at_Str; [rewrite lookup_map, Hm; reflexivity|]);
      apply dict_get_app_l; [rewrite <- Hid|rewrite <- Hname]; reflexivity.
Qed.

(** ** Disciplines *)

Lemma add_disciplines_carries (disciplines : gset (string * string)) (event : Element)
    (pair : string * string) :
  carries_discipline event pair → add_disciplines disciplines event = {[pair]} ∪ disciplines.
Proof.
  intros (discipline & Hall & Hid & Hname & Hid_ne & Hname_ne).
  unfold add_disciplines. rewrite Hall. simpl. rewrite Hid, Hname.
  rewrite !truthy_str_nonempty by done. simpl. by destruct pair.
Qed.

Lemma two_distinct_pairs (p q : string * string) :
  p ≠ q →
  size ({[p]} ∪ {[q]} : gset (string * string)) = 2%nat
  ∧ elements ({[p]} ∪ {[q]} : gset (string * string)) ≡ₚ [p; q].
Proof.
  intros Hne. split.
  - rewrite size_union by set_solver. by rewrite !size_singleton.
  - rewrite elements_union_singleton by set_solver. by rewrite elements_singleton.
Qed.

Section Disciplines.

Variable server : list Request → Request → string + Response.
Variable fromstring : string → string + Element.

(** C7.  When the events response parses to a tree with three events, two
    of which carry one identical (id, name) pair [p] and the other a
    distinct pair [q], the discipline table has the columns
    [DisciplineId] and [Name] and exactly two rows, one for [p] and one
    for [q]. *)
Theorem disciplines_deduplicated (self : EventorAPI) (from_date to_date : option string)
    (w w' : World) (t e1 e2 e3 : Element) (p1 p2 p3 p q : string * string) :
  get_events server fromstring self from_date to_date None w = (Ok (Some t), w') →
  findall t [Self; Descendant "Event"] = [e1; e2; e3] →
  carries_discipline e1 p1 → carries_discipline e2 p2 → carries_discipline e3 p3 →
  [p1; p2; p3] ≡ₚ [p; p; q] →
  p ≠ q →
  ∃ df, extract_disciplines_from_events server fromstring self from_date to_date w = (Ok df, w')
        ∧ columns df = ["DisciplineId"; "Name"]
        ∧ length (data df) = 2%nat
        ∧ data df ≡ₚ [[Str (fst p); Str (snd p)]; [Str (fst q); Str (snd q)]].
Proof.
  intros Hget Hevents H1 H2 H3 Hperm Hne.
  eexists. split.
  { unfold extract_disciplines_from_events, client_bind. rewrite Hget.
    unfold lift. simpl py_findall. rewrite Hevents. reflexivity. }
  cbn [fold_left columns data DataFrame_of_pairs].
  rewrite (add_disciplines_carries _ e1 p1), (add_disciplines_carries _ e2 p2),
    (add_disciplines_carries _ e3 p3) by done.
  assert ({[p3]} ∪ ({[p2]} ∪ ({[p1]} ∪ ∅)) = ({[p]} ∪ {[q]} : gset (string * string))) as ->.
  { apply set_eq. intros x.
    assert (x ∈ [p1; p2; p3] ↔ x ∈ [p; p; q]) as Hx by by rewrite Hperm.
    set_solver. }
  destruct (two_distinct_pairs p q Hne) as [Hsize Helems].
  split; [done|]. split.
  - rewrite length_map. exact Hsize.
  - by rewrite Helems.
Qed.

End Disciplines.

(** ** Reading a record back *)

Lemma dict_get_record_of_spec (spec : field_spec) (e : Element) (c : string) (l : lookup_kind) :
  NoDup (map fst spec) → (c, l) ∈ spec →
  dict_get c (record_of_spec spec e) = Some (lookup_value e l).
Proof.
  induction spec as [|[c0 l0] spec IH]; intros Hnd Hin.
  - by apply elem_of_nil in Hin.
  - cbn [map fst] in Hnd. apply NoDup_cons in Hnd as [Hc0 Hnd].
    apply elem_of_cons in Hin as [Heq|Hin].
    + inversion Heq; subst. simpl. by rewrite String.eqb_refl.
    + unfold record_of_spec. cbn [map fst snd]. rewrite dict_get_skip.
      * by apply IH.
      * intros ->. apply Hc0. apply list_elem_of_fmap. by exists (c0, l).
Qed.

Lemma dict_get_app_r {V : Type} (c : string) (d1 d2 : list (string * V)) :
  c ∉ map fst d1 → dict_get c (d1 ++ d2) = dict_get c d2.
Proof.
  induction d1 as [|[k v] d1 IH]; intros Hc; [done|].
  cbn [map fst] in Hc. apply not_elem_of_cons in Hc as [Hne Hc].
  simpl. destruct (String.eqb k c) eqn:E.
  - apply String.eqb_eq in E. congruence.
  - by apply IH.
Qed.

Ltac nodup_keys := apply (bool_decide_unpack _); by vm_compute.

(** On a guarded tree every extractor returns the table of one record
    per matched node, and the record holds, for each field of the
    extractor's table, the value of that lookup at the node. *)
Lemma extract_records (x : extractor) (self : EventorAPI) (t : Element) :
  guarded x t →
  ∃ f : Element → dict,
    extract x self (Some t) = Ok (DataFrame_of_dicts (map f (findall t (repeating_node x))))
    ∧ ∀ e c l, (c, l) ∈ fields x → dict_get c (f e) = Some (lookup_value e l).
Proof.
  intros Hg. destruct x; simpl in Hg; cbn [extract repeating_node fields].
  - eexists. split; [by apply events_to_dataframe_spec|].
    intros e c l Hin. cbv beta.
    apply dict_get_record_of_spec.
    + destruct (is_not_None _); nodup_keys.
    + unfold event_fields. rewrite !elem_of_app.
      apply elem_of_app in Hin as [Hin|Hin]; auto.
  - eexists. split; [apply organizations_to_dataframe_spec|].
    intros e c l Hin. apply dict_get_record_of_spec; [nodup_keys|done].
  - eexists. split; [apply event_classes_to_dataframe_spec|].
    intros e c l Hin. apply dict_get_record_of_spec; [nodup_keys|done].
  - eexists. split; [apply entryfees_to_dataframe_spec|].
    intros e c l Hin. apply dict_get_record_of_spec; [nodup_keys|done].
  - eexists. split; [apply entries_to_dataframe_spec|].
    intros e c l Hin. apply dict_get_record_of_spec; [nodup_keys|done].
  - eexists. split; [apply competitor_count_to_dataframe_spec|].
    intros e c l Hin. apply dict_get_record_of_spec; [nodup_keys|done].
  - destruct (find t [Self; Descendant "Organisation"]) as [organisation|] eqn:Horg; [|done].
    eexists. split; [by apply memberships_to_dataframe_spec|].
    intros e c l Hin. cbv beta.
    rewrite dict_get_app_r.
    + apply dict_get_record_of_spec; [nodup_keys|done].
    + rewrite record_of_spec_keys.
      assert (NoDup (map fst organisation_identity_fields ++ map fst membership_fields)) as Hnd
        by nodup_keys.
      apply NoDup_app in Hnd as (_ & Hdisj & _).
      intros Hc. apply (Hdisj c Hc). apply list_elem_of_fmap. by exists (c, l).
Qed.




(** The record of that event: [EventId] has its text, the empty [Name]
    node gives the empty string, the missing [WebURL] is null, and
    [EventRaceDistance] is the attribute of the race group. *)
Example fields_of_an_event_record :
  ∃ d, event_dict (node "Event" [leaf "EventId" "1"; node "Name" [];
                                 mkElement "EventRace" [("raceDistance", "5000")] None []])
       = Ok d
    ∧ dict_get "EventId" d = Some (Some "1")
    ∧ dict_get "Name" d = Some (Some "")
    ∧ dict_get "WebURL" d = Some None
    ∧ dict_get "EventRaceDistance" d = Some (Some "5000").
Proof. eexists. split; [reflexivity|]. by repeat split. Qed.

(** ** The columns of an event record *)

(** C3, amended.  The dict built for an event node (one that does not hit
    the unguarded lookups) always has the nineteen columns of the base
    and race tables, whichever optional groups are present.  Without an
    [EventRace] group the fields [EventRaceId], [RaceDate], [RaceClock],
    [EventCenterX], [EventCenterY] and [EventCenterUnit] are null and
    [EventRaceName] is the empty string.  With an [EventRace] group the
    record also has [EventRaceDistance], the group's [raceDistance]
    attribute; the two date fields are null when the group has no
    [RaceDate], and the three centre fields are null when it has no
    [EventCenterPosition]. *)
Theorem event_record_columns (event : Element) :
  organiser_has_id event = true →
  discipline_ids_have_text event = true →
  ∃ d, event_dict event = Ok d
    ∧ (∀ c, c ∈ map fst (event_base_fields ++ event_race_fields) → ∃ v, dict_get c d = Some v)
    ∧ (find event [Self; Descendant "EventRace"] = None →
         dict_get "EventRaceName" d = Some (Some "")
         ∧ ∀ c, c ∈ ["EventRaceId"; "RaceDate"; "RaceClock";
                     "EventCenterX"; "EventCenterY"; "EventCenterUnit"] →
                dict_get c d = Some None)
    ∧ (∀ event_race, find event [Self; Descendant "EventRace"] = Some event_race →
         dict_get "EventRaceDistance" d = Some (get event_race "raceDistance")
         ∧ (find event_race [Child "RaceDate"] = None →
              dict_get "RaceDate" d = Some None ∧ dict_get "RaceClock" d = Some None)
         ∧ (find event_race [Self; Descendant "EventCenterPosition"] = None →
              dict_get "EventCenterX" d = Some None
              ∧ dict_get "EventCenterY" d = Some None
              ∧ dict_get "EventCenterUnit" d = Some None)).
Proof.
  intros Horg Hdisc. eexists. split; [by apply event_dict_spec|].
  split; [|split].
  - intros c Hc. vm_compute in Hc.
    destruct (is_not_None (find event [Self; Descendant "EventRace"]));
      repeat (apply elem_of_cons in Hc as [->|Hc]; [eexists; reflexivity|]);
      by apply elem_of_nil in Hc.
  - intros Hrace. rewrite Hrace. cbn [is_not_None]. split.
    + cbn. by rewrite Hrace.
    + intros c Hc.
      repeat (apply elem_of_cons in Hc as [->|Hc]; [cbn; by rewrite Hrace|]).
      by apply elem_of_nil in Hc.
  - intros event_race Hrace. rewrite Hrace. cbn [is_not_None]. split; [|split].
    + cbn. by rewrite Hrace.
    + intros Hdate. split; cbn; by rewrite Hrace, Hdate.
    + intros Hcenter. repeat split; cbn; by rewrite Hrace, Hcenter.
Qed.

(** C3 as stated fails.  The dict built for an event without an
    [EventRace] group has no [EventRaceDistance] key, so it does not have
    the full column set, and its [EventRaceName] is the empty string, not
    null; the table of such events has no [EventRaceDistance] column. *)
Lemma event_without_race_lacks_column :
  let event := node "Event" [leaf "EventId" "1"; leaf "Name" "Sprint"] in
  find event [Self; Descendant "EventRace"] = None
  ∧ (∃ d df,
      event_dict event = Ok d
      ∧ map fst d ≠ event_columns
      ∧ dict_get "EventRaceDistance" d = None
      ∧ dict_get "EventRaceName" d = Some (Some "")
      ∧ events_to_dataframe (EventorAPI_init "key") (Some (node "EventList" [event])) = Ok df
      ∧ ¬ In "EventRaceDistance" (columns df)
      ∧ cell_at df 0 "EventRaceName" = Some (Str "")).
Proof.
  cbv zeta. split; [reflexivity|].
  eexists. eexists. split; [reflexivity|].
  split; [by vm_compute|]. split; [reflexivity|]. split; [reflexivity|].
  split; [reflexivity|]. split; [|reflexivity].
  vm_compute. intros Hin.
  repeat (destruct Hin as [Heq|Hin]; [discriminate Heq|]).
  exact Hin.
Qed.

(** The scenario of C3: a race group with [raceDistance = 5000] and no
    centre position. *)
Lemma event_record_columns_witness :
  let event_race := mkElement "EventRace" [("raceDistance", "5000")] None
                      [leaf "EventRaceId" "9"] in
  let event := node "Event" [leaf "EventId" "1"; event_race] in
  ∃ d, event_dict event = Ok d
    ∧ (∀ c, c ∈ map fst (event_base_fields ++ event_race_fields) → ∃ v, dict_get c d = Some v)
    ∧ dict_get "EventRaceDistance" d = Some (Some "5000")
    ∧ dict_get "EventCenterX" d = Some None.
Proof.
  cbv zeta.
  destruct (event_record_columns
              (node "Event" [leaf "EventId" "1";
                             mkElement "EventRace" [("raceDistance", "5000")] None
                               [leaf "EventRaceId" "9"]]))
    as (d & Hd & Hcols & _ & Hrace); [reflexivity|reflexivity|].
  exists d. split; [exact Hd|]. split; [exact Hcols|].
  destruct (Hrace (mkElement "EventRace" [("raceDistance", "5000")] None
                     [leaf "EventRaceId" "9"]) eq_refl)
    as (Hdistance & _ & Hcenter).
  split; [exact Hdistance|]. exact (proj1 (Hcenter eq_refl)).
Defined.

Example events_scenario_table :
  ∃ df, events_to_dataframe (EventorAPI_init "key")
          (Some (node "EventList"
                   [node "Event" [leaf "EventId" "1";
                                  mkElement "EventRace" [("raceDistance", "5000")] None
                                    [leaf "EventRaceId" "9"]]])) = Ok df
        ∧ length (data df) = 1%nat
        ∧ cell_at df 0 "EventRaceDistance" = Some (Str "5000")
        ∧ cell_at df 0 "EventCenterX" = Some Null.
Proof. eexists. split; [reflexivity|]. by repeat split. Qed.

(** ** The claims at concrete inputs *)

(** C5 at the date [2024-01-01]. *)
Lemma date_bounds_serialized_witness :
  query_of (get_events sample_server sample_fromstring (EventorAPI_init "key")
              (Some "2024-01-01") (Some "2024-12-31") None) (mkWorld [] []) "fromDate"
  = Some (VStr "2024-01-01 00:00:00").
Proof.
  exact (proj1 (date_bounds_serialized sample_server sample_fromstring (EventorAPI_init "key")
                  (mkWorld [] []) None None None None None (Some "2024-12-31") None None None
                  None None None false false false false "2024-01-01"
                  ltac:(discriminate))).
Defined.

(** C9 at the list [3, 1, 2]. *)
Lemma id_lists_comma_joined_in_order_witness :
  str_split "," "3,1,2" = ["3"; "1"; "2"]
  ∧ query_of (get_competitor_count sample_server sample_fromstring (EventorAPI_init "key")
                None (Some [3; 1; 2]) None) (mkWorld [] []) "eventIds"
    = Some (VStr "3,1,2").
Proof.
  pose proof (id_lists_comma_joined_in_order sample_server sample_fromstring
                (EventorAPI_init "key") (mkWorld [] []) None None None None None None
                None None None None None None false false false false [3; 1; 2]
                ltac:(discriminate)) as H.
  cbv zeta in H. split; [exact (proj1 H)|].
  exact (proj1 (proj2 (proj2 (proj2 (proj2 (proj2 (proj2 H))))))).
Defined.

(** The scenario of C6: [Id = 7], [Name = Acme], two memberships. *)
Lemma memberships_repeat_organisation_witness :
  ∃ df, memberships_to_dataframe (EventorAPI_init "key") (Some sample_memberships) = Ok df
        ∧ length (data df) = 2%nat
        ∧ ∀ i, (i < 2)%nat →
               cell_at df i "OrganisationId" = Some (Str "7")
               ∧ cell_at df i "OrganisationName" = Some (Str "Acme").
Proof.
  exact (memberships_repeat_organisation (EventorAPI_init "key") sample_memberships
           (node "Organisation" [leaf "Id" "7"; leaf "Name" "Acme"]) "7" "Acme"
           eq_refl eq_refl eq_refl).
Defined.

(** The scenario of C7: two events with the pair (1, Foot), one with
    (2, MTB). *)
Lemma disciplines_deduplicated_witness :
  ∃ df, extract_disciplines_from_events sample_server sample_fromstring (EventorAPI_init "key")
          None None (mkWorld [] [])
        = (Ok df,
           mkWorld [mkRequest "https://eventor.orienteering.asn.au/api/events" [("ApiKey", "key")]
                      (Some ∅)] [])
        ∧ columns df = ["DisciplineId"; "Name"]
        ∧ length (data df) = 2%nat
        ∧ data df ≡ₚ [[Str "1"; Str "Foot"]; [Str "2"; Str "MTB"]].
Proof.
  apply (disciplines_deduplicated sample_server sample_fromstring (EventorAPI_init "key")
           None None (mkWorld [] []) _ sample_events
           (sample_event "1" "Foot") (sample_event "1" "Foot") (sample_event "2" "MTB")
           ("1", "Foot") ("1", "Foot") ("2", "MTB") ("1", "Foot") ("2", "MTB")).
  - reflexivity.
  - reflexivity.
  - eexists. repeat split; discriminate.
  - eexists. repeat split; discriminate.
  - eexists. repeat split; discriminate.
  - reflexivity.
  - discriminate.
Defined.

(** * Further properties of the code *)

(** ** Tables, cell by cell *)

Lemma forallb_pointwise {A : Type} (f g : A → bool) (l : list A) :
  (∀ a, f a = g a) → forallb f l = forallb g l.
Proof. intros Hfg. induction l as [|a l IH]; simpl; [done|]. by rewrite Hfg, IH. Qed.

(** X1.  On a guarded tree the table has one row per matched node, in
    document order.  Row [i] holds, in the column of each field of the
    extractor's table, the string that the lookup gives at the [i]-th
    matched node.  Where the lookup gives [None] the cell is a missing
    value: [None] when the lookup gives [None] at every matched node,
    [NaN] otherwise. *)
Theorem table_cell_is_lookup (x : extractor) (self : EventorAPI) (t : Element) :
  guarded x t →
  ∃ df, extract x self (Some t) = Ok df
    ∧ length (data df) = length (findall t (repeating_node x))
    ∧ ∀ i e c l,
        findall t (repeating_node x) !! i = Some e → (c, l) ∈ fields x →
        cell_at df i c
        = Some (match lookup_value e l with
                | Some s => Str s
                | None =>
                    if forallb (λ e', negb (is_not_None (lookup_value e' l)))
                               (findall t (repeating_node x))
                    then Null else NaN
                end).
Proof.
  intros Hg. destruct (extract_records x self t Hg) as (f & Hrun & Hget).
  eexists. split; [exact Hrun|]. split.
  - by rewrite (proj1 (DataFrame_of_dicts_shape _)), length_map.
  - intros i e c l He Hin.
    assert (map f (findall t (repeating_node x)) !! i = Some (f e)) as Hrec
      by by rewrite lookup_map, He.
    pose proof (Hget e c l Hin) as Hv.
    destruct (lookup_value e l) as [s|] eqn:Hl; [by eapply cell_at_Str|].
    rewrite (cell_at_None _ i (f e) c Hrec Hv).
    unfold column_is_None. rewrite forallb_map.
    erewrite forallb_pointwise; [reflexivity|].
    intros e'. cbv beta. pose proof (Hget e' c l Hin) as Hv'. unfold value in Hv'. rewrite Hv'.
    by destruct (lookup_value e' l).
Qed.

(** X1 at a tree with two events, the second one with a race group. *)
Lemma table_cell_is_lookup_witness :
  let t := node "EventList"
             [node "Event" [leaf "EventId" "1"];
              node "Event" [leaf "EventId" "2"; node "EventRace" [leaf "EventRaceId" "9"]]] in
  ∃ df, extract Events (EventorAPI_init "key") (Some t) = Ok df
    ∧ length (data df) = length (findall t (repeating_node Events))
    ∧ ∀ i e c l,
        findall t (repeating_node Events) !! i = Some e → (c, l) ∈ fields Events →
        cell_at df i c
        = Some (match lookup_value e l with
                | Some s => Str s
                | None =>
                    if forallb (λ e', negb (is_not_None (lookup_value e' l)))
                               (findall t (repeating_node Events))
                    then Null else NaN
                end).
Proof.
  cbv zeta. apply table_cell_is_lookup. simpl. intros event Hevent.
  vm_compute in Hevent.
  repeat (apply elem_of_cons in Hevent as [->|Hevent]; [by split|]).
  by apply elem_of_nil in Hevent.
Defined.

(** In the table of that tree the first event, which has no race group,
    has [NaN] under [EventRaceId], a column that holds the string of the
    second event, and [None] under [RaceDate], which no event has. *)
Example table_cells_missing_values :
  ∃ df, events_to_dataframe (EventorAPI_init "key")
          (Some (node "EventList"
                   [node "Event" [leaf "EventId" "1"];
                    node "Event" [leaf "EventId" "2";
                                  node "EventRace" [leaf "EventRaceId" "9"]]])) = Ok df
    ∧ cell_at df 0 "EventRaceId" = Some NaN
    ∧ cell_at df 1 "EventRaceId" = Some (Str "9")
    ∧ cell_at df 0 "RaceDate" = Some Null
    ∧ cell_at df 0 "EventRaceDistance" = Some NaN.
Proof. eexists. split; [reflexivity|]. by repeat split. Qed.

Lemma extract_uniform_records (x : extractor) (self : EventorAPI) (t : Element) :
  x ≠ Events → guarded x t →
  ∃ f : Element → dict,
    extract x self (Some t) = Ok (DataFrame_of_dicts (map f (findall t (repeating_node x))))
    ∧ ∀ e, map fst (f e) = table_columns x.
Proof.
  intros Hx Hg. destruct x; [done|..]; simpl in Hg; cbn [extract repeating_node table_columns fields].
  - eexists. split; [apply organizations_to_dataframe_spec|]. intros e. apply record_of_spec_keys.
  - eexists. split; [apply event_classes_to_dataframe_spec|]. intros e. apply record_of_spec_keys.
  - eexists. split; [apply entryfees_to_dataframe_spec|]. intros e. apply record_of_spec_keys.
  - eexists. split; [apply entries_to_dataframe_spec|]. intros e. apply record_of_spec_keys.
  - eexists. split; [apply competitor_count_to_dataframe_spec|].
    intros e. apply record_of_spec_keys.
  - destruct (find t [Self; Descendant "Organisation"]) as [organisation|] eqn:Horg; [|done].
    eexists. split; [by apply memberships_to_dataframe_spec|].
    intros e. cbv beta. by rewrite map_app, !record_of_spec_keys, <- map_app.
Qed.

(** X2.  For every extractor but the events one (whose records differ in
    their keys), the table of a guarded tree has no column at all when no
    node matches, and otherwise exactly the fixed columns of the
    extractor, in the order of the dict display; every row has one cell
    per column. *)
Theorem table_columns_fixed (x : extractor) (self : EventorAPI) (t : Element) :
  x ≠ Events → guarded x t →
  ∃ df, extract x self (Some t) = Ok df
    ∧ columns df = match findall t (repeating_node x) with
                   | [] => []
                   | _ :: _ => table_columns x
                   end
    ∧ Forall (λ row, length row = length (columns df)) (data df).
Proof.
  intros Hx Hg. destruct (extract_uniform_records x self t Hx Hg) as (f & Hrun & Hkeys).
  eexists. split; [exact Hrun|].
  split; [|apply DataFrame_of_dicts_shape].
  destruct (findall t (repeating_node x)) as [|e nodes]; [done|].
  apply DataFrame_of_dicts_uniform.
  - destruct x; [done|..]; nodup_keys.
  - done.
  - apply List.Forall_forall. intros d Hd.
    apply in_map_iff in Hd as (e' & <- & _). apply Hkeys.
Qed.

(** X2 at a memberships tree. *)
Lemma table_columns_fixed_witness :
  ∃ df, extract Memberships (EventorAPI_init "key") (Some sample_memberships) = Ok df
    ∧ columns df = ["OrganisationId"; "OrganisationName"; "OrganisationShortName";
                    "MembershipId"; "Year"; "TypeId"; "TypeName"; "PersonId"; "FirstName";
                    "LastName"; "BirthDate"; "Sex"; "PaidTime"]
    ∧ Forall (λ row, length row = length (columns df)) (data df).
Proof.
  apply (table_columns_fixed Memberships (EventorAPI_init "key") sample_memberships).
  - discriminate.
  - simpl. vm_compute. discriminate.
Defined.

(** ** The race-distance column of the events table *)

Lemma event_fields_distance (has_race : bool) :
  "EventRaceDistance" ∈ map fst (event_fields has_race) ↔ has_race = true.
Proof.
  destruct has_race; split; try done.
  - intros _. vm_compute. do 12 apply list_elem_of_further. apply list_elem_of_here.
  - intros Hin. vm_compute in Hin.
    repeat (apply elem_of_cons in Hin as [Heq|Hin]; [discriminate Heq|]).
    by apply elem_of_nil in Hin.
Qed.

(** X3.  The table of a guarded events tree has the column
    [EventRaceDistance] if and only if at least one event has an
    [EventRace] group; in that table the row of an event without the
    group holds [NaN] in that column. *)
Theorem race_distance_column (self : EventorAPI) (t : Element) :
  guarded Events t →
  ∃ df, events_to_dataframe self (Some t) = Ok df
    ∧ (In "EventRaceDistance" (columns df)
       ↔ ∃ event, event ∈ findall t [Self; Descendant "Event"]
                  ∧ find event [Self; Descendant "EventRace"] ≠ None)
    ∧ ∀ i event,
        findall t [Self; Descendant "Event"] !! i = Some event →
        find event [Self; Descendant "EventRace"] = None →
        In "EventRaceDistance" (columns df) →
        cell_at df i "EventRaceDistance" = Some NaN.
Proof.
  intros Hg. eexists. split; [by apply events_to_dataframe_spec|].
  unfold DataFrame_of_dicts at 1 2. cbn [columns]. split.
  - rewrite <- list_elem_of_In, union_keys_elem. split.
    + intros (d & Hd & Hkey).
      apply list_elem_of_In, in_map_iff in Hd as (event & <- & Hevent).
      rewrite record_of_spec_keys in Hkey. apply event_fields_distance in Hkey.
      exists event. split; [by apply list_elem_of_In|].
      by destruct (find event [Self; Descendant "EventRace"]).
    + intros (event & Hevent & Hrace).
      eexists. split.
      * apply list_elem_of_In, in_map_iff. exists event. split; [done|by apply list_elem_of_In].
      * rewrite record_of_spec_keys. apply event_fields_distance.
        by destruct (find event [Self; Descendant "EventRace"]).
  - intros i event Hevent Hrace Hcol.
    rewrite (cell_at_DataFrame_of_dicts _ i (record_of_spec (event_fields false) event)).
    + reflexivity.
    + rewrite lookup_map, Hevent. cbn [fmap option_fmap option_map]. by rewrite Hrace.
    + by apply list_elem_of_In.
Qed.

(** X3 at a tree whose first event has no race group and whose second
    event has one. *)
Lemma race_distance_column_witness :
  let t := node "EventList"
             [node "Event" [leaf "EventId" "1"];
              node "Event" [leaf "EventId" "2";
                            mkElement "EventRace" [("raceDistance", "5000")] None []]] in
  ∃ df, events_to_dataframe (EventorAPI_init "key") (Some t) = Ok df
    ∧ (In "EventRaceDistance" (columns df)
       ↔ ∃ event, event ∈ findall t [Self; Descendant "Event"]
                  ∧ find event [Self; Descendant "EventRace"] ≠ None)
    ∧ ∀ i event,
        findall t [Self; Descendant "Event"] !! i = Some event →
        find event [Self; Descendant "EventRace"] = None →
        In "EventRaceDistance" (columns df) →
        cell_at df i "EventRaceDistance" = Some NaN.
Proof.
  cbv zeta. apply race_distance_column. simpl. intros event Hevent.
  vm_compute in Hevent.
  repeat (apply elem_of_cons in Hevent as [->|Hevent]; [by split|]).
  by apply elem_of_nil in Hevent.
Defined.

(** ** When extraction raises *)

Lemma forallb_false_elem {A : Type} (f : A → bool) (l : list A) :
  forallb f l = false → ∃ a, a ∈ l ∧ f a = false.
Proof.
  induction l as [|a l IH]; simpl; [done|].
  destruct (f a) eqn:Ha; simpl.
  - intros H. destruct (IH H) as (a' & Ha' & Hf). exists a'. split; [by apply list_elem_of_further|done].
  - intros _. exists a. split; [apply list_elem_of_here|done].
Qed.

(** X4.  On a parsed tree the events extractor raises if and only if
    some event has an [Organiser] without an [OrganisationId] under it,
    or a [DisciplineId] without text; one such event makes the whole
    extraction fail, whatever the other events are. *)
Theorem events_raise_iff_unguarded (self : EventorAPI) (t : Element) :
  (∃ x, events_to_dataframe self (Some t) = Raise x)
  ↔ ∃ event, event ∈ findall t [Self; Descendant "Event"]
             ∧ (organiser_has_id event = false ∨ discipline_ids_have_text event = false).
Proof.
  split.
  - intros [x Hx].
    destruct (forallb (λ event, organiser_has_id event && discipline_ids_have_text event)
                (findall t [Self; Descendant "Event"])) eqn:Hall.
    + rewrite events_to_dataframe_spec in Hx; [done|].
      intros event Hevent. rewrite forallb_forall in Hall.
      apply list_elem_of_In, Hall in Hevent. by apply andb_true_iff in Hevent.
    + apply forallb_false_elem in Hall as (event & Hevent & Hbad).
      exists event. split; [done|]. by apply andb_false_iff.
  - intros (event & Hevent & Hbad).
    apply (events_to_dataframe_raises self t event Hevent).
    destruct Hbad as [-> | ->]; [done|]. apply andb_false_r.
Qed.

(** X5.  On a parsed tree the memberships extractor raises (an
    [AttributeError], from the lookup of [Id] on [None]) if and only if
    the tree has no [Organisation] node below its root; this is so even
    when the tree has no [Membership] node. *)
Theorem memberships_raise_iff_no_organisation (self : EventorAPI) (t : Element) :
  (∃ x, memberships_to_dataframe self (Some t) = Raise x)
  ↔ find t [Self; Descendant "Organisation"] = None.
Proof.
  split.
  - intros [x Hx].
    destruct (find t [Self; Descendant "Organisation"]) as [organisation|] eqn:Horg; [|done].
    by rewrite (memberships_to_dataframe_spec self t organisation Horg) in Hx.
  - intros Horg. eexists. by apply memberships_to_dataframe_no_organisation.
Qed.

(** X6.  The three organisation columns of the memberships table hold,
    in every row, what [Id], [Name] and [ShortName] are at the first
    [Organisation] node of the tree: the text, the empty string for an
    empty child, and null in every row when that child is missing. *)
Theorem memberships_organisation_columns (self : EventorAPI) (t organisation : Element) :
  find t [Self; Descendant "Organisation"] = Some organisation →
  ∃ df, memberships_to_dataframe self (Some t) = Ok df
    ∧ ∀ i, (i < length (findall t [Self; Descendant "Membership"]))%nat →
        cell_at df i "OrganisationId" = Some (cell_of_value (findtext organisation [Child "Id"]))
        ∧ cell_at df i "OrganisationName"
          = Some (cell_of_value (findtext organisation [Child "Name"]))
        ∧ cell_at df i "OrganisationShortName"
          = Some (cell_of_value (findtext organisation [Child "ShortName"])).
Proof.
  intros Horg. eexists. split; [by apply memberships_to_dataframe_spec|].
  intros i Hi. destruct (lookup_lt_is_Some_2 _ i Hi) as [membership Hm].
  repeat split;
    (eapply cell_at_uniform;
     [rewrite lookup_map, Hm; reflexivity|];
     intros d Hd; apply list_elem_of_In, in_map_iff in Hd as (m & <- & _);
     apply dict_get_app_l; reflexivity).
Qed.

(** X6 at an organisation without a [ShortName]. *)
Lemma memberships_organisation_columns_witness :
  ∃ df, memberships_to_dataframe (EventorAPI_init "key") (Some sample_memberships) = Ok df
    ∧ ∀ i, (i < 2)%nat →
        cell_at df i "OrganisationId" = Some (Str "7")
        ∧ cell_at df i "OrganisationName" = Some (Str "Acme")
        ∧ cell_at df i "OrganisationShortName" = Some Null.
Proof.
  exact (memberships_organisation_columns (EventorAPI_init "key") sample_memberships
           (node "Organisation" [leaf "Id" "7"; leaf "Name" "Acme"]) eq_refl).
Defined.

(** ** What the request methods send *)

Lemma lookup_if_insert_same (c : bool) (k : string) (v : pyval) (m : gmap string pyval) :
  (if c then <[k:=v]> m else m) !! k = if c then Some v else m !! k.
Proof. destruct c; [apply lookup_insert_eq|done]. Qed.

Lemma truthy_str_false (o : option string) : truthy_str o = false ↔ o = None ∨ o = Some "".
Proof.
  destruct o as [[|a s]|]; simpl; split; try done; try by auto.
  all: intros [H|H]; discriminate H.
Qed.

Lemma truthy_list_false {A : Type} (o : option (list A)) :
  truthy_list o = false ↔ o = None ∨ o = Some [].
Proof.
  destruct o as [[|a l]|]; simpl; split; try done; try by auto.
  all: intros [H|H]; discriminate H.
Qed.

Lemma is_not_None_false {A : Type} (o : option A) : is_not_None o = false ↔ o = None.
Proof. by destruct o. Qed.

Lemma if_Some_None {A : Type} (c : bool) (v : A) :
  (if c then Some v else None) = None ↔ c = false.
Proof. by destruct c. Qed.

Section Requests.

Variable server : list Request → Request → string + Response.
Variable fromstring : string → string + Element.
Variable w : World.
Variable key : string.

Variables organisation_ids event_ids event_class_ids person_ids classification_ids
  : option (list Z).
Variables from_date to_date from_event_date to_event_date from_entry_date to_entry_date
  from_modify_date to_modify_date : option string.
Variables include_entry_fees include_person_element include_organisation_element
  include_event_element include_child_organisations include_contact_details : bool.
Variables event_id organisation_id year : Z.

Ltac one_get :=
  unfold get_events, get_organizations, get_event_classes, get_entryfees, get_entries,
    get_competitor_count, get_memberships;
  cbv zeta; rewrite _make_request_sent; try eexists; reflexivity.

(** X7.  Each of the seven request methods of a client built from the
    key [key] issues exactly one GET, whatever the service answers: to
    the fixed base address followed by the endpoint of the method, with
    the header [ApiKey: key].  [get_organizations] and [get_entryfees]
    send no parameter mapping, and [get_entryfees] puts the decimal event
    id in the path. *)
Theorem one_get_with_credential :
  let self := EventorAPI_init key in
  let get (endpoint : string) (mapping : option (gmap string pyval)) :=
    mkRequest ("https://eventor.orienteering.asn.au/api/" +:+ endpoint) [("ApiKey", key)]
              mapping in
  sent (snd (get_organizations server fromstring self w)) = sent w ++ [get "organisations" None]
  ∧ sent (snd (get_entryfees server fromstring self event_id w))
    = sent w ++ [get ("entryfees/events/" +:+ str_of_int event_id) None]
  ∧ (∃ mapping, sent (snd (get_events server fromstring self from_date to_date
                             classification_ids w))
                = sent w ++ [get "events" (Some mapping)])
  ∧ (∃ mapping, sent (snd (get_event_classes server fromstring self event_id
                             include_entry_fees w))
                = sent w ++ [get "eventclasses" (Some mapping)])
  ∧ (∃ mapping, sent (snd (get_entries server fromstring self organisation_ids event_ids
                             event_class_ids from_event_date to_event_date from_entry_date
                             to_entry_date from_modify_date to_modify_date include_entry_fees
                             include_person_element include_organisation_element
                             include_event_element w))
                = sent w ++ [get "entries" (Some mapping)])
  ∧ (∃ mapping, sent (snd (get_competitor_count server fromstring self organisation_ids
                             event_ids person_ids w))
                = sent w ++ [get "competitorcount" (Some mapping)])
  ∧ (∃ mapping, sent (snd (get_memberships server fromstring self organisation_id year
                             include_child_organisations include_contact_details w))
                = sent w ++ [get "memberships" (Some mapping)]).
Proof. cbv zeta. repeat split; one_get. Qed.

Variable self : EventorAPI.

Ltac sent_mapping :=
  unfold get_events, get_entries, get_competitor_count, get_event_classes, get_memberships;
  rewrite query_of_make_request; cbv zeta.

Ltac other_key Hkey :=
  repeat (apply not_elem_of_cons in Hkey as [? Hkey]);
  repeat first [ rewrite lookup_insert_ne by done | rewrite lookup_if_insert_ne by done ];
  apply lookup_empty.

Ltac this_key :=
  repeat first [ rewrite lookup_insert_ne by done | rewrite lookup_if_insert_ne by done ];
  rewrite lookup_if_insert_same;
  repeat first [ rewrite lookup_insert_ne by done | rewrite lookup_if_insert_ne by done ];
  rewrite lookup_empty, if_Some_None.

(** X8.  [get_events] sends a filter only when it is set: [fromDate],
    [toDate] and [classificationIds] are missing from the mapping exactly
    when the argument is [None] or empty, and the mapping never has
    another key. *)
Theorem get_events_parameters :
  let q := query_of (get_events server fromstring self from_date to_date classification_ids) w in
  (q "fromDate" = None ↔ from_date = None ∨ from_date = Some "")
  ∧ (q "toDate" = None ↔ to_date = None ∨ to_date = Some "")
  ∧ (q "classificationIds" = None ↔ classification_ids = None ∨ classification_ids = Some [])
  ∧ ∀ k, k ∉ ["fromDate"; "toDate"; "classificationIds"] → q k = None.
Proof.
  cbv zeta. split; [|split; [|split]].
  - sent_mapping. this_key. apply truthy_str_false.
  - sent_mapping. this_key. apply truthy_str_false.
  - sent_mapping. this_key. apply truthy_list_false.
  - intros k Hk. sent_mapping. other_key Hk.
Qed.

(** X9.  [get_competitor_count] tests its lists against [None] only: a
    key is missing from the mapping exactly when the argument is [None],
    an empty list is sent as the empty string, and the mapping never has
    a key other than [organisationIds], [eventIds] and [personIds]. *)
Theorem get_competitor_count_parameters :
  let q := query_of (get_competitor_count server fromstring self organisation_ids event_ids
                       person_ids) w in
  (q "organisationIds" = None ↔ organisation_ids = None)
  ∧ (q "eventIds" = None ↔ event_ids = None)
  ∧ (q "personIds" = None ↔ person_ids = None)
  ∧ query_of (get_competitor_count server fromstring self (Some []) event_ids person_ids) w
             "organisationIds" = Some (VStr "")
  ∧ query_of (get_competitor_count server fromstring self organisation_ids (Some []) person_ids) w
             "eventIds" = Some (VStr "")
  ∧ query_of (get_competitor_count server fromstring self organisation_ids event_ids (Some [])) w
             "personIds" = Some (VStr "")
  ∧ ∀ k, k ∉ ["organisationIds"; "eventIds"; "personIds"] → q k = None.
Proof.
  cbv zeta. split_and!.
  - sent_mapping. this_key. apply is_not_None_false.
  - sent_mapping. this_key. apply is_not_None_false.
  - sent_mapping. this_key. apply is_not_None_false.
  - sent_mapping. cbn [is_not_None]. by lookup_param.
  - sent_mapping. cbn [is_not_None]. by lookup_param.
  - sent_mapping. cbn [is_not_None]. by lookup_param.
  - intros k Hk. sent_mapping. other_key Hk.
Qed.

(** X10.  [get_event_classes] and [get_memberships] send their integer
    arguments as integers, under [eventId], [organisationId] and [year],
    and no key besides these and their boolean flags. *)
Theorem fixed_parameter_sets :
  let classes := query_of (get_event_classes server fromstring self event_id
                             include_entry_fees) w in
  let members := query_of (get_memberships server fromstring self organisation_id year
                             include_child_organisations include_contact_details) w in
  classes "eventId" = Some (VInt event_id)
  ∧ (∀ k, k ∉ ["eventId"; "includeEntryFees"] → classes k = None)
  ∧ members "organisationId" = Some (VInt organisation_id)
  ∧ members "year" = Some (VInt year)
  ∧ (∀ k, k ∉ ["organisationId"; "year"; "includeChildOrganisations"; "includeContactDetails"] →
          members k = None).
Proof.
  cbv zeta. split_and!.
  - sent_mapping. by lookup_param.
  - intros k Hk. sent_mapping. other_key Hk.
  - sent_mapping. by lookup_param.
  - sent_mapping. by lookup_param.
  - intros k Hk. sent_mapping. other_key Hk.
Qed.

(** X11.  [get_entries] sends each of its nine filters only when it is
    set: the key of a list or of a date is missing from the mapping
    exactly when the argument is [None] or empty.  Besides the nine
    filters and the four inclusion flags the mapping has no key. *)
Theorem get_entries_parameters :
  let q := query_of (get_entries server fromstring self organisation_ids event_ids
                       event_class_ids from_event_date to_event_date from_entry_date
                       to_entry_date from_modify_date to_modify_date include_entry_fees
                       include_person_element include_organisation_element
                       include_event_element) w in
  (q "organisationIds" = None ↔ organisation_ids = None ∨ organisation_ids = Some [])
  ∧ (q "eventIds" = None ↔ event_ids = None ∨ event_ids = Some [])
  ∧ (q "eventClassIds" = None ↔ event_class_ids = None ∨ event_class_ids = Some [])
  ∧ (q "fromEventDate" = None ↔ from_event_date = None ∨ from_event_date = Some "")
  ∧ (q "toEventDate" = None ↔ to_event_date = None ∨ to_event_date = Some "")
  ∧ (q "fromEntryDate" = None ↔ from_entry_date = None ∨ from_entry_date = Some "")
  ∧ (q "toEntryDate" = None ↔ to_entry_date = None ∨ to_entry_date = Some "")
  ∧ (q "fromModifyDate" = None ↔ from_modify_date = None ∨ from_modify_date = Some "")
  ∧ (q "toModifyDate" = None ↔ to_modify_date = None ∨ to_modify_date = Some "")
  ∧ ∀ k, k ∉ ["organisationIds"; "eventIds"; "eventClassIds"; "fromEventDate"; "toEventDate";
              "fromEntryDate"; "toEntryDate"; "fromModifyDate"; "toModifyDate";
              "includeEntryFees"; "includePersonElement"; "includeOrganisationElement";
              "includeEventElement"] → q k = None.
Proof.
  cbv zeta. split_and!.
  - sent_mapping. this_key. apply truthy_list_false.
  - sent_mapping. this_key. apply truthy_list_false.
  - sent_mapping. this_key. apply truthy_list_false.
  - sent_mapping. this_key. apply truthy_str_false.
  - sent_mapping. this_key. apply truthy_str_false.
  - sent_mapping. this_key. apply truthy_str_false.
  - sent_mapping. this_key. apply truthy_str_false.
  - sent_mapping. this_key. apply truthy_str_false.
  - sent_mapping. this_key. apply truthy_str_false.
  - intros k Hk. sent_mapping. other_key Hk.
Qed.

End Requests.

(** ** The discipline table *)




Section DisciplineTable.

Variable server : list Request → Request → string + Response.
Variable fromstring : string → string + Element.


(** X13.  [extract_disciplines_from_events] issues one GET to the events
    endpoint.  A transport failure is raised to the caller.  A body that
    does not parse makes it raise an [AttributeError], since it calls
    [findall] on the "no data" sentinel; it returns a table only for a
    parsed tree. *)
Theorem discipline_failures (self : EventorAPI) (from_date to_date : option string) (w : World) :
  let run := extract_disciplines_from_events server fromstring self from_date to_date w in
  ∃ request,
    sent (snd run) = sent w ++ [request]
    ∧ url request = "https://eventor.orienteering.asn.au/api/events"
    ∧ match server (sent w) request with
      | inl msg => fst run = Raise (RequestException msg)
      | inr response =>
          if (400 <=? status_code response) && (status_code response <? 600) then
            fst run = Raise (RequestException (http_error_msg response))
          else
            match fromstring (response_text response) with
            | inl msg =>
                fst run = Raise (AttributeError "'NoneType' object has no attribute 'findall'")
            | inr root => ∃ df, fst run = Ok df
            end
      end.
Proof.
  cbv zeta. unfold extract_disciplines_from_events, get_events, client_bind. cbv zeta.
  rewrite _make_request_run. cbv zeta.
  match goal with |- context [server (sent w) ?r] => exists r end. cbn [url].
  destruct (server (sent w) _) as [msg|response]; [by split_and!|].
  destruct ((400 <=? status_code response) && (status_code response <? 600)); [by split_and!|].
  destruct (fromstring (response_text response)); split_and!; try done.
  by eexists.
Qed.

End DisciplineTable.


(** ** The diagnostic printer *)

Lemma Element_ind_children (P : Element → Prop) :
  (∀ tag attrib text children,
     Forall P children → P (mkElement tag attrib text children)) →
  ∀ e, P e.
Proof.
  intros Hnode.
  refine (fix IH (e : Element) : P e :=
            match e with
            | mkElement tag attrib text children =>
                Hnode tag attrib text children
                  ((fix all (l : list Element) : Forall P l :=
                      match l with
                      | [] => @List.Forall_nil Element P
                      | c :: l' => @List.Forall_cons Element P c l' (IH c) (all l')
                      end) children)
            end).
Qed.

Lemma iter_children (tag : string) (attrib : list (string * string)) (text : option string)
    (children : list Element) :
  iter (mkElement tag attrib text children)
  = mkElement tag attrib text children :: flat_map iter children.
Proof. reflexivity. Qed.

Lemma print_xml_element_children (tag : string) (attrib : list (string * string))
    (text : option string) (children : list Element) (indent : Z) :
  print_xml_element (mkElement tag attrib text children) indent
  = [str_repeat "  " indent +:+ "<" +:+ tag
     +:+ String.concat "" (map (λ kv, " " +:+ fst kv +:+ "=" +:+ quote +:+ snd kv +:+ quote)
                               attrib)
     +:+ ">"]
    ++ (if truthy_str text && truthy_str (Some (strip (py_str text)))
        then [str_repeat "  " (indent + 1) +:+ strip (py_str text)]
        else [])
    ++ flat_map (λ child, print_xml_element child (indent + 1)) children
    ++ [str_repeat "  " indent +:+ "</" +:+ tag +:+ ">"].
Proof. reflexivity. Qed.

Lemma lstrip_blank (s : string) :
  forallb isspace (list_ascii_of_string s) = true → lstrip s = "".
Proof.
  induction s as [|c s IH]; simpl; [done|].
  intros H. apply andb_true_iff in H as [-> H]. by apply IH.
Qed.

Lemma lstrip_visible (s : string) :
  forallb isspace (list_ascii_of_string s) = false →
  ∃ c s', lstrip s = String c s' ∧ isspace c = false.
Proof.
  induction s as [|c s IH]; simpl; [done|].
  destruct (isspace c) eqn:Hc; simpl.
  - apply IH.
  - intros _. by exists c, s.
Qed.

Lemma rstrip_visible (c : ascii) (s : string) :
  isspace c = false → rstrip (String c s) ≠ "".
Proof. intros Hc. simpl. rewrite Hc. by destruct (rstrip s). Qed.

(** The text line is printed exactly for an element with visible text. *)
Lemma text_line_printed (e : Element) :
  truthy_str (text e) && truthy_str (Some (strip (py_str (text e)))) = has_visible_text e.
Proof.
  unfold has_visible_text. destruct (text e) as [s|]; [|done]. simpl.
  destruct (forallb isspace (list_ascii_of_string s)) eqn:Hs; simpl.
  - unfold strip. rewrite lstrip_blank by done. simpl. apply andb_false_r.
  - destruct (lstrip_visible s Hs) as (c & s' & Hl & Hc).
    unfold strip. rewrite Hl.
    pose proof (rstrip_visible c s' Hc) as Hr.
    destruct (rstrip (String c s')) as [|c' r]; [done|]. simpl.
    destruct s; [done|reflexivity].
Qed.

(** X14.  [print_xml_structure] writes, for a tree, two lines per element
    (the opening and the closing tag) and one more line for each element
    whose text has a character that is not white space; an element with
    blank text prints like one without text. *)
Theorem print_xml_structure_line_count (e : Element) (indent : Z) :
  length (print_xml_structure (Some e) indent)
  = (2 * length (iter e) + length (List.filter has_visible_text (iter e)))%nat.
Proof.
  simpl. revert indent.
  induction e as [tg at_ tx children IH] using Element_ind_children; intros indent.
  rewrite print_xml_element_children, iter_children.
  assert (length (flat_map (λ child, print_xml_element child (indent + 1)) children)
          = (2 * length (flat_map iter children)
             + length (List.filter has_visible_text (flat_map iter children)))%nat) as Hchildren.
  { induction IH as [|c cs Hc _ IHcs]; [done|].
    simpl. rewrite !length_app, List.filter_app, length_app, Hc, IHcs. lia. }
  pose proof (text_line_printed (mkElement tg at_ tx children)) as Htext.
  cbn [text] in Htext. rewrite Htext.
  rewrite !length_app, Hchildren. cbn [List.filter length].
  destruct (has_visible_text (mkElement tg at_ tx children)); simpl; lia.
Qed.





Example print_xml_structure_text_of_two_lines :
  print_xml_structure (Some (leaf "Name" ("Sprint" +:+ String "010" "Relay"))) 1
  = ["  <Name>"; "    Sprint" +:+ String "010" "Relay"; "  </Name>"].
Proof. reflexivity. Qed.

Example print_xml_structure_sample :
  print_xml_structure
    (Some (mkElement "Event" [("id", "7")] (Some " Sprint ") [leaf "Name" " "; node "Race" []])) 0
  = ["<Event id=" +:+ quote +:+ "7" +:+ quote +:+ ">"; "  Sprint";
     "  <Name>"; "  </Name>"; "  <Race>"; "  </Race>"; "</Event>"]
  ∧ print_xml_structure None 0 = ["None"].
Proof. split; reflexivity. Qed.

(** ** A malformed body, end to end *)

Section MalformedBody.

Variable server : list Request → Request → string + Response.
Variable fromstring : string → string + Element.

(** X16.  When the service answers a request with a body that does not
    parse (and a status outside 400..599), handing the result of
    [_make_request] to an extractor gives the empty table for the events
    extractor only; with any of the other six extractors the caller gets
    an [AttributeError].  In both cases the parse error has been logged
    once, with the body. *)
Theorem malformed_body_end_to_end (self : EventorAPI) (endpoint : string)
    (params : option (gmap string pyval)) (w : World) (response : Response) (msg : string)
    (x : extractor) :
  server (sent w) (mkRequest (BASE_URL +:+ "/" +:+ endpoint) (headers self) params)
    = inr response →
  (400 <=? status_code response) && (status_code response <? 600) = false →
  fromstring (response_text response) = inl msg →
  let run := fetch_and_extract self (_make_request server fromstring self endpoint params) x w in
  fst run = match x with
            | Events => Ok DataFrame_empty
            | Memberships => Raise (AttributeError "'NoneType' object has no attribute 'find'")
            | _ => Raise (AttributeError "'NoneType' object has no attribute 'findall'")
            end
  ∧ log (snd run) = log w ++ ["XMLParseError: " +:+ msg +:+ ". Response text: "
                              +:+ response_text response].
Proof.
  intros Hserver Hstatus Hparse. cbv zeta.
  unfold fetch_and_extract, client_bind.
  rewrite _make_request_run. cbv zeta. rewrite Hserver, Hstatus, Hparse.
  unfold lift. cbn [fst snd log]. split; [|done]. by destruct x.
Qed.

End MalformedBody.

(** X16 at an empty body, for the organisations request. *)
Lemma malformed_body_end_to_end_witness :
  let server : list Request → Request → string + Response :=
    λ _ request, inr (mkResponse 200 "OK" (url request) "") in
  let run := fetch_and_extract (EventorAPI_init "key")
               (_make_request server sample_fromstring (EventorAPI_init "key")
                  "organisations" None)
               Organizations (mkWorld [] []) in
  fst run = Raise (AttributeError "'NoneType' object has no attribute 'findall'")
  ∧ log (snd run) = ["XMLParseError: no element found: line 1, column 0. Response text: "].
Proof.
  cbv zeta.
  exact (malformed_body_end_to_end
           (λ _ request, inr (mkResponse 200 "OK" (url request) "")) sample_fromstring
           (EventorAPI_init "key") "organisations" None (mkWorld [] [])
           (mkResponse 200 "OK" "https://eventor.orienteering.asn.au/api/organisations" "")
           "no element found: line 1, column 0" Organizations eq_refl eq_refl eq_refl).
Defined.

